(** * Claude usage dashboard: the archive loader and the statistics layer

    A shallow embedding of [src/App.tsx] (the four [calculate*] derivations,
    [getUserName] and [processZipFile]) over the record shapes of
    [src/types.ts], followed by the properties the specification states
    about them.

    Conventions of the embedding.
    - A JavaScript string is a [string]; its characters stand for the
      UTF-16 code units, so [String.length] is [.length].
    - Counts and lengths are [nat]; a quotient is an exact rational [Q]
      and [Math.round] is taken on [Q] (the integers involved stay far
      below 2^52, where the double quotient rounds as the exact one).
    - A plain object used as a dictionary ([Record<string, V> = {}]) is the
      list of its own properties in creation order, read through the
      members it inherits from [Object.prototype].
    - The built-ins whose behaviour depends on the host ([Date] parsing,
      [localeCompare], [JSON.parse]) are section variables.

    The file has three parts: the embedding, the vocabulary of the
    statements (with a host and data for the examples), and the
    properties, each claim of the specification under its number. *)

From Stdlib Require Import List String Ascii Bool Arith ZArith NArith QArith Qround.
From Stdlib Require Import Lia Permutation Sorted.
From Stdlib Require OrderedTypeEx.
From Stdlib Require Import DecimalString.
Import ListNotations.

Local Open Scope string_scope.
Local Open Scope list_scope.
Local Open Scope nat_scope.

(** ** Data model ([src/types.ts]) *)

Module User.
Record t := {
  uuid : string;
  full_name : string;
  email_address : string;
  verified_phone_number : string
}.
End User.

Module ContentType.
Inductive t := text | thinking | tool_use | tool_result | token_budget.
End ContentType.

(** The optional members are [option]s; [input] (an untyped record) is not
    read by any function below and is left out. *)
Module ContentItem.
Record t := {
  type : ContentType.t;
  text : option string;
  name : option string;
  id : option string;
  start_timestamp : option string;
  stop_timestamp : option string
}.
End ContentItem.

Module Sender.
Inductive t := human | assistant.
End Sender.

(** [text] and [content] are declared mandatory, yet every reader guards
    them ([m.text?.length], [msg.content ?? []]): an absent member is
    [None]. *)
Module ChatMessage.
Record t := {
  uuid : string;
  text : option string;
  sender : Sender.t;
  created_at : string;
  updated_at : string;
  content : option (list ContentItem.t)
}.
End ChatMessage.

Module Account.
Record t := { uuid : string }.
End Account.

Module Conversation.
Record t := {
  uuid : string;
  name : string;
  summary : string;
  created_at : string;
  updated_at : string;
  account : Account.t;
  chat_messages : list ChatMessage.t
}.
End Conversation.

(** ** [Array.prototype.sort]

    The comparator returns a number, of which only the sign is used (a NaN
    counts as 0).  The sort is stable, so for a consistent comparator its
    result is determined; it is computed here by insertion.  For an
    inconsistent comparator the order is left to the engine and insertion
    gives one possible outcome; nothing below then uses more than the fact
    that the result is a permutation. *)

Section ArraySort.
Context {A : Type}.
Variable compareFn : A -> A -> Z.

Fixpoint sort_insert (x : A) (l : list A) : list A :=
  match l with
  | [] => [x]
  | y :: l' =>
      if (compareFn x y >? 0)%Z then y :: sort_insert x l'
      else x :: y :: l'
  end.

Fixpoint Array_sort (l : list A) : list A :=
  match l with
  | [] => []
  | x :: l' => sort_insert x (Array_sort l')
  end.
End ArraySort.

(** ** Plain objects used as dictionaries *)

(** What is stored under a tool name by [o[k] = (o[k] || 0) + 1]: a number,
    or a string once [+] has met a value that is not a number. *)
Inductive tally := Num (n : nat) | Str (s : string).

Module Obj.

(** The own enumerable properties, in creation order. *)
Definition t (V : Type) := list (string * V).

Fixpoint get_own {V} (o : t V) (k : string) : option V :=
  match o with
  | [] => None
  | (k', v) :: o' => if (k' =? k)%string then Some v else get_own o' k
  end.

(** The members that every [{}] inherits from [Object.prototype], each with
    the string that [+] converts it to: the source text of a built-in
    function (written as V8 prints it; engines differ in its white space)
    and, for [__proto__], the text of the prototype object. *)
Definition native (f : string) : string :=
  "function " ++ f ++ "() { [native code] }".

Definition Object_prototype (k : string) : option string :=
  if (k =? "constructor")%string then Some (native "Object")
  else if (k =? "__proto__")%string then Some "[object Object]"
  else if existsb (String.eqb k)
            ["__defineGetter__"; "__defineSetter__"; "__lookupGetter__";
             "__lookupSetter__"; "hasOwnProperty"; "isPrototypeOf";
             "propertyIsEnumerable"; "toLocaleString"; "toString";
             "valueOf"]
       then Some (native k)
  else None.

(** The outcome of reading [o[k]]. *)
Inductive property (V : Type) :=
| own (v : V)
| inherited (as_string : string)
| undefined.
Arguments own {V} v.
Arguments inherited {V} as_string.
Arguments undefined {V}.

Definition get {V} (o : t V) (k : string) : property V :=
  match get_own o k with
  | Some v => own v
  | None =>
      match Object_prototype k with
      | Some s => inherited s
      | None => undefined
      end
  end.

(** Define or overwrite the own property [k]. *)
Fixpoint put {V} (o : t V) (k : string) (v : V) : t V :=
  match o with
  | [] => [(k, v)]
  | (k', v') :: o' =>
      if (k' =? k)%string then (k', v) :: o' else (k', v') :: put o' k v
  end.

(** [o[k] = v].  Every other inherited member is a writable data property,
    which the assignment shadows by an own one; [__proto__] is an accessor
    whose setter ignores a primitive [v] and creates nothing. *)
Definition set {V} (o : t V) (k : string) (v : V) : t V :=
  if (k =? "__proto__")%string then o else put o k v.

(** Keys that are array indices (canonical decimal numerals below
    2^32 - 1) are enumerated first, in ascending numeric order; the other
    keys follow in creation order. *)
Definition digit_value (a : ascii) : option N :=
  let n := N_of_ascii a in
  if ((48 <=? n) && (n <=? 57))%N then Some (n - 48)%N else None.

Fixpoint decimal (s : string) (acc : N) : option N :=
  match s with
  | EmptyString => Some acc
  | String a s' =>
      match digit_value a with
      | Some d => decimal s' (10 * acc + d)%N
      | None => None
      end
  end.

Definition array_index (k : string) : option N :=
  match k with
  | EmptyString => None
  | String a rest =>
      if (a =? "0")%char && negb (rest =? "")%string then None
      else match decimal k 0%N with
           | Some n => if (n <? 2 ^ 32 - 1)%N then Some n else None
           | None => None
           end
  end.

Definition is_index {V} (p : string * V) : bool :=
  match array_index (fst p) with Some _ => true | None => false end.

Definition index_of {V} (p : string * V) : Z :=
  match array_index (fst p) with Some n => Z.of_N n | None => 0%Z end.

(** [Object.entries(o)] *)
Definition entries {V} (o : t V) : list (string * V) :=
  Array_sort (fun p q => (index_of p - index_of q)%Z) (filter is_index o)
  ++ filter (fun p => negb (is_index p)) o.

End Obj.

(** [v || 0] and [v + 1] on what a tool counter can hold. *)
Definition or_zero (p : Obj.property tally) : tally :=
  match p with
  | Obj.own (Num 0) => Num 0
  | Obj.own (Str EmptyString) => Num 0
  | Obj.own v => v
  | Obj.inherited s => Str s
  | Obj.undefined => Num 0
  end.

Definition plus_one (v : tally) : tally :=
  match v with
  | Num n => Num (n + 1)
  | Str s => Str (s ++ "1")
  end.

(** [counts[name] = (counts[name] || 0) + 1] *)
Definition increment (counts : Obj.t tally) (name : string) : Obj.t tally :=
  Obj.set counts name (plus_one (or_zero (Obj.get counts name))).

(** ** Derived records ([src/types.ts]) *)

Module UserStats.
Record t := {
  user : User.t;
  conversationCount : nat;
  messageCount : nat;
  humanMessages : nat;
  assistantMessages : nat;
  avgPromptLength : Z;
  avgResponseLength : Z;
  totalHumanChars : nat;
  totalAssistantChars : nat;
  thinkingBlocks : nat;
  toolUses : Obj.t tally;
  lastActive : string
}.
End UserStats.

Module DailyActivity.
Record t := { date : string; conversations : nat; messages : nat }.
End DailyActivity.

Module ToolUsageEntry.
Record t := { name : string; count : tally }.
End ToolUsageEntry.

Module ConversationDetail.
Record t := {
  uuid : string;
  name : string;
  userName : string;
  created_at : string;
  messageCount : nat;
  humanMessages : nat;
  assistantMessages : nat;
  humanChars : nat;
  assistantChars : nat;
  thinkingBlocks : nat;
  toolsUsed : Obj.t tally;
  hasThinking : bool
}.
End ConversationDetail.

(** ** Small pieces shared by the derivations *)

(** [Math.round]: the nearest integer, halves upwards. *)
Definition Math_round (x : Q) : Z := Qfloor (x + (1 # 2))%Q.

(** [total / count] as a number. *)
Definition quotient (total count : nat) : Q :=
  (inject_Z (Z.of_nat total) / inject_Z (Z.of_nat count))%Q.

Definition is_human (m : ChatMessage.t) : bool :=
  match ChatMessage.sender m with Sender.human => true | _ => false end.

Definition is_assistant (m : ChatMessage.t) : bool :=
  match ChatMessage.sender m with Sender.assistant => true | _ => false end.

(** [m.text?.length || 0] *)
Definition text_length (m : ChatMessage.t) : nat :=
  match ChatMessage.text m with
  | Some s => String.length s
  | None => 0
  end.

(** [msgs.reduce((sum, m) => sum + (m.text?.length || 0), 0)] *)
Definition total_chars (msgs : list ChatMessage.t) : nat :=
  fold_left (fun sum m => sum + text_length m) msgs 0.

(** [msg.content ?? []] *)
Definition content_or_empty (msg : ChatMessage.t) : list ContentItem.t :=
  match ChatMessage.content msg with
  | Some items => items
  | None => []
  end.

(** [c.type === "tool_use" && c.name]: the name, when it is present and not
    the empty string. *)
Definition tool_name (c : ContentItem.t) : option string :=
  match ContentItem.type c, ContentItem.name c with
  | ContentType.tool_use, Some (String a s) => Some (String a s)
  | _, _ => None
  end.

Definition is_thinking (c : ContentItem.t) : bool :=
  match ContentItem.type c with ContentType.thinking => true | _ => false end.

(** The body of the inner [for] of [calculateStats] and
    [calculateConversationDetails], on the pair
    [(thinkingBlocks, toolUses)]. *)
Definition scan_item (acc : nat * Obj.t tally) (c : ContentItem.t)
  : nat * Obj.t tally :=
  let thinkingBlocks :=
    if is_thinking c then fst acc + 1 else fst acc in
  let toolUses :=
    match tool_name c with
    | Some name => increment (snd acc) name
    | None => snd acc
    end in
  (thinkingBlocks, toolUses).

Definition scan_message (acc : nat * Obj.t tally) (msg : ChatMessage.t)
  : nat * Obj.t tally :=
  fold_left scan_item (content_or_empty msg) acc.

Definition scan_messages (msgs : list ChatMessage.t) : nat * Obj.t tally :=
  fold_left scan_message msgs (0, []).

(** The body of the inner [for] of [calculateToolUsage]. *)
Definition count_item (counts : Obj.t tally) (c : ContentItem.t) : Obj.t tally :=
  match tool_name c with
  | Some name => increment counts name
  | None => counts
  end.

Definition count_message (counts : Obj.t tally) (msg : ChatMessage.t)
  : Obj.t tally :=
  fold_left count_item (content_or_empty msg) counts.

Definition count_conversation (counts : Obj.t tally) (conv : Conversation.t)
  : Obj.t tally :=
  fold_left count_message (Conversation.chat_messages conv) counts.

(** [b.count - a.count]: NaN, hence 0 for the sort, unless both are
    numbers. *)
Definition count_difference (b a : tally) : Z :=
  match b, a with
  | Num m, Num n => Z.of_nat m - Z.of_nat n
  | _, _ => 0
  end.

(** [a.slice(0, 10)] *)
Definition slice_0_10 (s : string) : string := substring 0 10 s.

Module DayData.
Record t := { conversations : nat; messages : nat }.
End DayData.

(** The body of the [for] of [calculateDailyActivity].  When [dayMap[day]]
    is an inherited member the guard finds it truthy and the two updates
    land on that shared built-in: [dayMap] gets no own property. *)
Definition day_step (dayMap : Obj.t DayData.t) (conv : Conversation.t)
  : Obj.t DayData.t :=
  let day := slice_0_10 (Conversation.created_at conv) in
  let dayMap :=
    match Obj.get dayMap day with
    | Obj.undefined =>
        Obj.set dayMap day {| DayData.conversations := 0; DayData.messages := 0 |}
    | _ => dayMap
    end in
  match Obj.get_own dayMap day with
  | Some d =>
      Obj.put dayMap day
        {| DayData.conversations := DayData.conversations d + 1;
           DayData.messages :=
             DayData.messages d + List.length (Conversation.chat_messages conv) |}
  | None => dayMap
  end.

(** ** The derivations *)

Section Derivations.

(** [new Date(s).getTime()], with [None] for NaN. *)
Variable Date_getTime : string -> option Z.

(** [a.localeCompare(b)] *)
Variable localeCompare : string -> string -> Z.

(** [x > y] and [x - y] on times; a NaN makes the first false and the second
    NaN, which the sort reads as 0. *)
Definition time_gt (x y : option Z) : bool :=
  match x, y with
  | Some a, Some b => (a >? b)%Z
  | _, _ => false
  end.

Definition time_difference (x y : option Z) : Z :=
  match x, y with
  | Some a, Some b => (a - b)%Z
  | _, _ => 0%Z
  end.

Definition getUserName (users : list User.t) (uuid : string) : string :=
  match find (fun u => (User.uuid u =? uuid)%string) users with
  | Some u => User.full_name u
  | None => "Unknown"
  end.

(** The callback of [users.map] in [calculateStats]. *)
Definition userStats (conversations : list Conversation.t) (user : User.t)
  : UserStats.t :=
  let userConvs :=
    filter (fun c =>
              (Account.uuid (Conversation.account c) =? User.uuid user)%string)
           conversations in
  let allMessages := flat_map Conversation.chat_messages userConvs in
  let humanMessages := filter is_human allMessages in
  let assistantMessages := filter is_assistant allMessages in
  let totalHumanChars := total_chars humanMessages in
  let totalAssistantChars := total_chars assistantMessages in
  let scanned := scan_messages allMessages in
  let lastActive :=
    match userConvs with
    | c0 :: rest =>
        Conversation.updated_at
          (fold_left
             (fun latest c =>
                if time_gt (Date_getTime (Conversation.updated_at c))
                           (Date_getTime (Conversation.updated_at latest))
                then c else latest)
             rest c0)
    | [] => ""
    end in
  {| UserStats.user := user;
     UserStats.conversationCount := List.length userConvs;
     UserStats.messageCount := List.length allMessages;
     UserStats.humanMessages := List.length humanMessages;
     UserStats.assistantMessages := List.length assistantMessages;
     UserStats.totalHumanChars := totalHumanChars;
     UserStats.totalAssistantChars := totalAssistantChars;
     UserStats.avgPromptLength :=
       if 0 <? List.length humanMessages
       then Math_round (quotient totalHumanChars (List.length humanMessages))
       else 0%Z;
     UserStats.avgResponseLength :=
       if 0 <? List.length assistantMessages
       then Math_round (quotient totalAssistantChars (List.length assistantMessages))
       else 0%Z;
     UserStats.thinkingBlocks := fst scanned;
     UserStats.toolUses := snd scanned;
     UserStats.lastActive := lastActive |}.

Definition calculateStats (users : list User.t)
  (conversations : list Conversation.t) : list UserStats.t :=
  Array_sort
    (fun a b =>
       (Z.of_nat (UserStats.conversationCount b)
        - Z.of_nat (UserStats.conversationCount a))%Z)
    (map (userStats conversations) users).

Definition calculateDailyActivity (conversations : list Conversation.t)
  : list DailyActivity.t :=
  let dayMap := fold_left day_step conversations [] in
  map (fun e =>
         {| DailyActivity.date := fst e;
            DailyActivity.conversations := DayData.conversations (snd e);
            DailyActivity.messages := DayData.messages (snd e) |})
      (Array_sort (fun x y => localeCompare (fst x) (fst y))
                  (Obj.entries dayMap)).

Definition calculateToolUsage (conversations : list Conversation.t)
  : list ToolUsageEntry.t :=
  let counts := fold_left count_conversation conversations [] in
  Array_sort
    (fun a b => count_difference (ToolUsageEntry.count b) (ToolUsageEntry.count a))
    (map (fun e => {| ToolUsageEntry.name := fst e; ToolUsageEntry.count := snd e |})
         (Obj.entries counts)).

(** The callback of [conversations.map] in [calculateConversationDetails]. *)
Definition conversationDetail (users : list User.t) (conv : Conversation.t)
  : ConversationDetail.t :=
  let humanMsgs := filter is_human (Conversation.chat_messages conv) in
  let assistantMsgs := filter is_assistant (Conversation.chat_messages conv) in
  let scanned := scan_messages (Conversation.chat_messages conv) in
  {| ConversationDetail.uuid := Conversation.uuid conv;
     ConversationDetail.name :=
       match Conversation.name conv with
       | EmptyString => "Untitled"
       | n => n
       end;
     ConversationDetail.userName :=
       getUserName users (Account.uuid (Conversation.account conv));
     ConversationDetail.created_at := Conversation.created_at conv;
     ConversationDetail.messageCount := List.length (Conversation.chat_messages conv);
     ConversationDetail.humanMessages := List.length humanMsgs;
     ConversationDetail.assistantMessages := List.length assistantMsgs;
     ConversationDetail.humanChars := total_chars humanMsgs;
     ConversationDetail.assistantChars := total_chars assistantMsgs;
     ConversationDetail.thinkingBlocks := fst scanned;
     ConversationDetail.toolsUsed := snd scanned;
     ConversationDetail.hasThinking := 0 <? fst scanned |}.

Definition calculateConversationDetails (conversations : list Conversation.t)
  (users : list User.t) : list ConversationDetail.t :=
  Array_sort
    (fun a b =>
       time_difference (Date_getTime (ConversationDetail.created_at b))
                       (Date_getTime (ConversationDetail.created_at a)))
    (map (conversationDetail users) conversations).

End Derivations.

(** ** The archive loader ([processZipFile]) *)

Module JSON.
#[local] Unset Elimination Schemes.
Inductive t :=
| Null
| Bool (b : bool)
| Number (q : Q)
| String (s : string)
| Array (items : list t)
| Object (members : list (string * t)).
#[local] Set Elimination Schemes.

(** [!v] is false exactly on the truthy values. *)
Definition truthy (v : t) : bool :=
  match v with
  | Null => false
  | Bool b => b
  | Number q => negb (Qeq_bool q 0)
  | String s => negb (s =? "")%string
  | Array _ => true
  | Object _ => true
  end.

Definition isArray (v : t) : bool :=
  match v with Array _ => true | _ => false end.
End JSON.

(** A computation that may throw an [Error] with the given message. *)
Definition Exc (A : Type) : Type := string + A.
Definition ret {A} (a : A) : Exc A := inr a.
Definition throw {A} (message : string) : Exc A := inl message.
Definition bind {A B} (m : Exc A) (k : A -> Exc B) : Exc B :=
  match m with
  | inl message => inl message
  | inr a => k a
  end.

Notation "x <- m ;; k" := (bind m (fun x => k))
  (at level 61, m at next level, right associativity).

Module ZipObject.
(** [content] is what [async("string")] resolves to. *)
Record t := { dir : bool; content : string }.
End ZipObject.

Module JSZip.
(** [Object.entries(zip.files)]: path and entry, in archive order. *)
Record t := { files : list (string * ZipObject.t) }.
End JSZip.

(** [path.split("/").pop()] *)
Fixpoint last_segment (path : string) (current : string) : string :=
  match path with
  | EmptyString => current
  | String a rest =>
      if (a =? "/")%char then last_segment rest ""
      else last_segment rest (current ++ String a "")
  end.

(** [toLowerCase] on the characters A-Z; no other character lowers to a
    letter of the three file names. *)
Definition lower (a : ascii) : ascii :=
  let n := nat_of_ascii a in
  if (65 <=? n) && (n <=? 90) then ascii_of_nat (n + 32) else a.

Fixpoint toLowerCase (s : string) : string :=
  match s with
  | EmptyString => EmptyString
  | String a rest => String (lower a) (toLowerCase rest)
  end.

Definition fileName (path : string) : string :=
  toLowerCase (last_segment path "").

(** The three [let] variables of the load. *)
Record Found := {
  usersData : JSON.t;
  conversationsData : JSON.t;
  projectsData : JSON.t
}.

Definition nothing_found : Found :=
  {| usersData := JSON.Null;
     conversationsData := JSON.Null;
     projectsData := JSON.Array [] |}.

Definition missing_message : string :=
  "Zip must contain users.json and conversations.json".

Definition not_arrays_message : string :=
  "users.json and conversations.json must be arrays".

(** The state of [App] that [processZipFile] can reach. *)
Record AppState := {
  users : list JSON.t;
  conversations : list JSON.t;
  projects : list JSON.t;
  dataLoaded : bool;
  loading : bool;
  error : option string
}.

Section Loader.

(** [JSON.parse]: the parsed value, or the message of the [SyntaxError]. *)
Variable JSON_parse : string -> Exc JSON.t.

(** The body of the [for] over the entries. *)
Definition scan_entry (found : Found) (entry : string * ZipObject.t)
  : Exc Found :=
  let (path, zipEntry) := entry in
  if ZipObject.dir zipEntry then ret found
  else if (fileName path =? "users.json")%string then
    v <- JSON_parse (ZipObject.content zipEntry) ;;
    ret {| usersData := v;
           conversationsData := conversationsData found;
           projectsData := projectsData found |}
  else if (fileName path =? "conversations.json")%string then
    v <- JSON_parse (ZipObject.content zipEntry) ;;
    ret {| usersData := usersData found;
           conversationsData := v;
           projectsData := projectsData found |}
  else if (fileName path =? "projects.json")%string then
    v <- JSON_parse (ZipObject.content zipEntry) ;;
    ret {| usersData := usersData found;
           conversationsData := conversationsData found;
           projectsData := v |}
  else ret found.

Fixpoint scan_entries (found : Found) (entries : list (string * ZipObject.t))
  : Exc Found :=
  match entries with
  | [] => ret found
  | entry :: rest =>
      found' <- scan_entry found entry ;;
      scan_entries found' rest
  end.

(** The [try] block after [JSZip.loadAsync]: the three collections to
    store. *)
Definition load (zip : JSZip.t)
  : Exc (list JSON.t * list JSON.t * list JSON.t) :=
  found <- scan_entries nothing_found (JSZip.files zip) ;;
  if negb (JSON.truthy (usersData found))
     || negb (JSON.truthy (conversationsData found))
  then throw missing_message
  else
    match usersData found, conversationsData found with
    | JSON.Array usersData, JSON.Array conversationsData =>
        ret (usersData, conversationsData,
             match projectsData found with
             | JSON.Array projectsData => projectsData
             | _ => []
             end)
    | _, _ => throw not_arrays_message
    end.

(** [processZipFile], from the state before the call to the state once the
    promise has settled; [opened] is the outcome of
    [JSZip.loadAsync(file)]. *)
Definition processZipFile (state : AppState) (opened : Exc JSZip.t)
  : AppState :=
  match (zip <- opened ;; load zip) with
  | inr (usersData, conversationsData, projectsData) =>
      {| users := usersData;
         conversations := conversationsData;
         projects := projectsData;
         dataLoaded := true;
         loading := false;
         error := None |}
  | inl message =>
      {| users := users state;
         conversations := conversations state;
         projects := projects state;
         dataLoaded := dataLoaded state;
         loading := false;
         error := Some message |}
  end.

End Loader.

(** * Vocabulary of the statements *)

(** *** Per-user statistics *)

(** [z] is [x] rounded to the nearest integer, a half going up. *)
Definition nearest_integer (z : Z) (x : Q) : Prop :=
  (inject_Z z - (1 # 2) <= x /\ x < inject_Z z + (1 # 2))%Q.

(** The average law for an average, a total and a count: 0 when nothing
    is counted; otherwise the total divided by the count, rounded to the
    nearest integer, and not negative. *)
Definition average_law (avg : Z) (total count : nat) : Prop :=
  match count with
  | 0 => avg = 0%Z
  | S _ =>
      nearest_integer avg
        (inject_Z (Z.of_nat total) / inject_Z (Z.of_nat count))%Q
      /\ (0 <= avg)%Z
  end.

Definition sent_by (sender : Sender.t) (m : ChatMessage.t) : bool :=
  match sender, ChatMessage.sender m with
  | Sender.human, Sender.human => true
  | Sender.assistant, Sender.assistant => true
  | _, _ => false
  end.

(** The messages that [sender] sent in the conversations whose account is
    the user. *)
Definition messages_sent (sender : Sender.t) (user : User.t)
  (conversations : list Conversation.t) : list ChatMessage.t :=
  filter (sent_by sender)
    (flat_map Conversation.chat_messages
       (filter (fun c =>
                  (Account.uuid (Conversation.account c)
                   =? User.uuid user)%string)
               conversations)).

(** The number of characters of the texts of the messages; a message
    without text has none. *)
Definition characters (msgs : list ChatMessage.t) : nat :=
  list_sum
    (map (fun m =>
            match ChatMessage.text m with
            | Some text => String.length text
            | None => 0
            end)
         msgs).

(** The number of conversations whose account is the user. *)
Definition conversations_of (conversations : list Conversation.t)
  (user : User.t) : nat :=
  List.length
    (filter (fun c =>
               (Account.uuid (Conversation.account c) =? User.uuid user)%string)
            conversations).

(** The number of messages of all conversations. *)
Definition total_messages (conversations : list Conversation.t) : nat :=
  list_sum (map (fun c => List.length (Conversation.chat_messages c))
                conversations).

(** *** Absent members *)

(** A message with the absent members filled in: no text is the empty
    text, no content is the empty content. *)
Definition message_with_defaults (m : ChatMessage.t) : ChatMessage.t :=
  {| ChatMessage.uuid := ChatMessage.uuid m;
     ChatMessage.text :=
       Some (match ChatMessage.text m with Some s => s | None => "" end);
     ChatMessage.sender := ChatMessage.sender m;
     ChatMessage.created_at := ChatMessage.created_at m;
     ChatMessage.updated_at := ChatMessage.updated_at m;
     ChatMessage.content := Some (content_or_empty m) |}.

Definition with_defaults (c : Conversation.t) : Conversation.t :=
  {| Conversation.uuid := Conversation.uuid c;
     Conversation.name := Conversation.name c;
     Conversation.summary := Conversation.summary c;
     Conversation.created_at := Conversation.created_at c;
     Conversation.updated_at := Conversation.updated_at c;
     Conversation.account := Conversation.account c;
     Conversation.chat_messages :=
       map message_with_defaults (Conversation.chat_messages c) |}.

(** *** Daily activity *)

Definition is_digit (a : ascii) : bool :=
  let n := nat_of_ascii a in (48 <=? n) && (n <=? 57).

(** The date part of an ISO 8601 timestamp: [YYYY-MM-DD]. *)
Definition iso_date (k : string) : bool :=
  match k with
  | String y1 (String y2 (String y3 (String y4 (String h1
      (String m1 (String m2 (String h2 (String d1 (String d2 EmptyString)))))))))
    => is_digit y1 && is_digit y2 && is_digit y3 && is_digit y4
       && (h1 =? "-")%char && is_digit m1 && is_digit m2
       && (h2 =? "-")%char && is_digit d1 && is_digit d2
  | _ => false
  end.

(** The timestamp starts with a date. *)
Definition dated (conv : Conversation.t) : Prop :=
  iso_date (slice_0_10 (Conversation.created_at conv)) = true.

(** The conversations whose [created_at] starts with [date]. *)
Definition created_on (date : string) (conversations : list Conversation.t)
  : list Conversation.t :=
  filter (fun c => prefix date (Conversation.created_at c)) conversations.

Definition zero_day : DayData.t :=
  {| DayData.conversations := 0; DayData.messages := 0 |}.

Definition add_conversation (d : DayData.t) (conv : Conversation.t)
  : DayData.t :=
  {| DayData.conversations := DayData.conversations d + 1;
     DayData.messages :=
       DayData.messages d + List.length (Conversation.chat_messages conv) |}.

Definition day_total (d : DayData.t) (l : list Conversation.t) : DayData.t :=
  {| DayData.conversations := DayData.conversations d + List.length l;
     DayData.messages := DayData.messages d + total_messages l |}.

Definition or_zero_day (d : option DayData.t) : DayData.t :=
  match d with Some d => d | None => zero_day end.

(** *** Tool counters *)

(** What a tool counter can hold under a name: the name is not empty, a
    number is at least 1, and a string occurs only under the name of an
    inherited member. *)
Definition well_counted (e : string * tally) : Prop :=
  fst e <> ""
  /\ match snd e with
     | Num n => 1 <= n
     | Str _ => Obj.Object_prototype (fst e) <> None
     end.

(** *** The loader *)

(** A file entry whose lower-cased last path segment is [name]. *)
Definition matches (name : string) (entry : string * ZipObject.t) : bool :=
  negb (ZipObject.dir (snd entry)) && (fileName (fst entry) =? name)%string.

Definition present (name : string) (zip : JSZip.t) : Prop :=
  exists entry, In entry (JSZip.files zip) /\ matches name entry = true.

(** One of the three entries the loader reads. *)
Definition wanted (entry : string * ZipObject.t) : bool :=
  matches "users.json" entry || matches "conversations.json" entry
  || matches "projects.json" entry.

(** The collections of the state are those of [before]. *)
Definition same_data (before after : AppState) : Prop :=
  users after = users before
  /\ conversations after = conversations before
  /\ projects after = projects before
  /\ dataLoaded after = dataLoaded before.

Definition parses (r : Exc JSON.t) : Prop := exists v, r = inr v.
Definition parses_to_array (r : Exc JSON.t) : Prop :=
  exists items, r = inr (JSON.Array items).
Definition parses_to_non_array (r : Exc JSON.t) : Prop :=
  exists v, r = inr v /\ JSON.isArray v = false.
Definition fails_to_parse (r : Exc JSON.t) : Prop :=
  exists message, r = inl message.


Section LoaderVocabulary.
Variable JSON_parse : string -> Exc JSON.t.

(** Every entry named [name] has a content that [JSON.parse] maps into
    [P]. *)
Definition every (name : string) (zip : JSZip.t) (P : Exc JSON.t -> Prop)
  : Prop :=
  forall entry, In entry (JSZip.files zip) -> matches name entry = true ->
    P (JSON_parse (ZipObject.content (snd entry))).

(** What a scan leaves in one variable: the value parsed from the last
    entry of that name, or the initial value. *)
Definition pick (name : string) (entries : list (string * ZipObject.t))
  (initial : JSON.t) : JSON.t :=
  fold_left
    (fun current entry =>
       if matches name entry then
         match JSON_parse (ZipObject.content (snd entry)) with
         | inr v => v
         | inl _ => current
         end
       else current)
    entries initial.

End LoaderVocabulary.

(** ** A host and data for the examples

    A host for the examples: instances of the three built-ins that agree
    with a browser on the inputs used below. *)

Module Example.

Definition number (s : string) : option Z :=
  match s with
  | EmptyString => None
  | _ => option_map Z.of_N (Obj.decimal s 0%N)
  end.

(** Days from 1970-01-01 to the given civil date. *)
Definition days_from_civil (y m d : Z) : Z :=
  let y := if (m <=? 2)%Z then (y - 1)%Z else y in
  let era := (y / 400)%Z in
  let yoe := (y - era * 400)%Z in
  let mp := ((m + 9) mod 12)%Z in
  let doy := ((153 * mp + 2) / 5 + d - 1)%Z in
  let doe := (yoe * 365 + yoe / 4 - yoe / 100 + doy)%Z in
  (era * 146097 + doe - 719468)%Z.

(** [new Date(s).getTime()] on the form [YYYY-MM-DDTHH:MM:SSZ]; any other
    text is taken to be an invalid date. *)
Definition Date_getTime (s : string) : option Z :=
  match number (substring 0 4 s), number (substring 5 2 s),
        number (substring 8 2 s), number (substring 11 2 s),
        number (substring 14 2 s), number (substring 17 2 s) with
  | Some y, Some mo, Some d, Some h, Some mi, Some se =>
      if (s =? substring 0 4 s ++ "-" ++ substring 5 2 s ++ "-"
               ++ substring 8 2 s ++ "T" ++ substring 11 2 s ++ ":"
               ++ substring 14 2 s ++ ":" ++ substring 17 2 s ++ "Z")%string
         && (1 <=? mo)%Z && (mo <=? 12)%Z && (1 <=? d)%Z && (d <=? 31)%Z
         && (h <=? 23)%Z && (mi <=? 59)%Z && (se <=? 59)%Z
      then Some ((((days_from_civil y mo d * 24 + h) * 60 + mi) * 60 + se)
                 * 1000)%Z
      else None
  | _, _, _, _, _, _ => None
  end.

(** [a.localeCompare(b)] by code units, as every locale orders digits and
    hyphens. *)
Definition localeCompare (a b : string) : Z :=
  match String.compare a b with
  | Lt => (-1)%Z
  | Eq => 0%Z
  | Gt => 1%Z
  end.

(** [JSON.parse] on the three texts of the examples: an empty array, an
    empty object and the empty text; any other text is taken to be
    malformed. *)
Definition JSON_parse (text : string) : Exc JSON.t :=
  if (text =? "[]")%string then ret (JSON.Array [])
  else if (text =? "{}")%string then ret (JSON.Object [])
  else if (text =? "")%string then throw "Unexpected end of JSON input"
  else throw "Unexpected token".

Definition user (uuid full_name : string) : User.t :=
  {| User.uuid := uuid;
     User.full_name := full_name;
     User.email_address := "";
     User.verified_phone_number := "" |}.

Definition item (type : ContentType.t) (name : option string)
  : ContentItem.t :=
  {| ContentItem.type := type;
     ContentItem.text := None;
     ContentItem.name := name;
     ContentItem.id := None;
     ContentItem.start_timestamp := None;
     ContentItem.stop_timestamp := None |}.

Definition message (sender : Sender.t) (text : option string)
  (content : option (list ContentItem.t)) : ChatMessage.t :=
  {| ChatMessage.uuid := "m";
     ChatMessage.text := text;
     ChatMessage.sender := sender;
     ChatMessage.created_at := "2024-01-01T10:00:00Z";
     ChatMessage.updated_at := "2024-01-01T10:00:00Z";
     ChatMessage.content := content |}.

Definition conversation (uuid name created_at account : string)
  (chat_messages : list ChatMessage.t) : Conversation.t :=
  {| Conversation.uuid := uuid;
     Conversation.name := name;
     Conversation.summary := "";
     Conversation.created_at := created_at;
     Conversation.updated_at := created_at;
     Conversation.account := {| Account.uuid := account |};
     Conversation.chat_messages := chat_messages |}.

Definition question : ChatMessage.t :=
  message Sender.human (Some "hello") None.

Definition answer : ChatMessage.t :=
  message Sender.assistant (Some "hi")
    (Some [item ContentType.tool_use (Some "web_search");
           item ContentType.tool_use (Some "web_search");
           item ContentType.thinking None]).

Definition two_users : list User.t := [user "A" "Ada"; user "B" "Bob"].

Definition three_conversations : list Conversation.t :=
  [conversation "c1" "" "2024-01-02T09:00:00Z" "A" [question; answer];
   conversation "c2" "Untitled" "2024-01-01T10:00:00Z" "A"
     [question; answer; question];
   conversation "c3" "Plans" "2024-01-01T11:00:00Z" "B" []].

(** A conversation whose only block calls a tool of the given name. *)
Definition calling (tool : string) : Conversation.t :=
  conversation "c" "Tools" "2024-01-01T10:00:00Z" "A"
    [message Sender.assistant (Some "")
       (Some [item ContentType.tool_use (Some tool)])].

Definition file (content : string) : ZipObject.t :=
  {| ZipObject.dir := false; ZipObject.content := content |}.

(** A state in which an earlier archive is loaded. *)
Definition previous : AppState :=
  {| users := [JSON.Object [("uuid", JSON.String "A")]];
     conversations := [];
     projects := [JSON.Object []];
     dataLoaded := true;
     loading := false;
     error := None |}.

(** The three files, the projects one being empty. *)
Definition malformed_projects : JSZip.t :=
  {| JSZip.files :=
       [("export/", {| ZipObject.dir := true; ZipObject.content := "" |});
        ("export/users.json", file "[]");
        ("export/Conversations.JSON", file "[]");
        ("export/projects.json", file "")] |}.

(** The three files, the projects one holding an object. *)
Definition object_projects : JSZip.t :=
  {| JSZip.files :=
       [("export/users.json", file "[]");
        ("export/Conversations.JSON", file "[]");
        ("export/projects.json", file "{}")] |}.

(** No users.json, and a projects file that is empty. *)
Definition only_projects : JSZip.t :=
  {| JSZip.files := [("projects.json", file "")] |}.

(** No conversations.json. *)
Definition only_users : JSZip.t :=
  {| JSZip.files := [("users.json", file "[]")] |}.

End Example.

(** * More of the application

    The rest of [src/App.tsx] that computes on the data: the summary totals
    of [App], the figures of [ThinkingVsDirect], the texts that
    [ConversationDetailView] and [ProjectsSection] cut to a limit, the
    choice of the view in [App], and [useTheme]. *)

(** ** Summary totals ([App]) *)

(** [stats.reduce((s, u) => s + u.messageCount, 0)] *)
Definition totalMessages (stats : list UserStats.t) : nat :=
  fold_left (fun s u => s + UserStats.messageCount u) stats 0.

(** [stats.reduce((s, u) => s + u.thinkingBlocks, 0)] *)
Definition thinkingTotal (stats : list UserStats.t) : nat :=
  fold_left (fun s u => s + UserStats.thinkingBlocks u) stats 0.

(** [String(n)] for a count. *)
Definition Number_toString (n : nat) : string :=
  NilEmpty.string_of_uint (Nat.to_uint n).

(** [s + c] on numbers and strings: a sum of numbers, and a concatenation
    as soon as one side is a string. *)
Definition plus (s c : tally) : tally :=
  match s, c with
  | Num a, Num b => Num (a + b)
  | Num a, Str b => Str (Number_toString a ++ b)
  | Str a, Num b => Str (a ++ Number_toString b)
  | Str a, Str b => Str (a ++ b)
  end.

(** [toolUsage.reduce((s, t) => s + t.count, 0)] *)
Definition toolTotal (toolUsage : list ToolUsageEntry.t) : tally :=
  fold_left (fun s t => plus s (ToolUsageEntry.count t)) toolUsage (Num 0).

(** ** [ThinkingVsDirect] *)

(** The two slices of the chart, [withThinking] and [withoutThinking]. *)
Definition ThinkingVsDirect (conversations : list ConversationDetail.t)
  : list (string * Z) :=
  let withThinking :=
    Z.of_nat (List.length (filter ConversationDetail.hasThinking conversations)) in
  let withoutThinking :=
    (Z.of_nat (List.length conversations) - withThinking)%Z in
  [("Extended Thinking", withThinking); ("Direct Response", withoutThinking)].

(** ** Texts cut to a limit *)

Definition MSG_TRUNCATE_LIMIT : nat := 2000.

(** The body of a message in [ConversationDetailView]. *)
Definition message_body (msg : ChatMessage.t) : string :=
  match ChatMessage.text msg with
  | Some (String a s) =>
      let text := String a s in
      if MSG_TRUNCATE_LIMIT <? String.length text
      then substring 0 MSG_TRUNCATE_LIMIT text ++ "..."
      else text
  | _ => "(no text content)"
  end.

Module Creator.
Record t := { uuid : string; full_name : string }.
End Creator.

Module Doc.
Record t := {
  uuid : string;
  filename : string;
  content : string;
  created_at : string
}.
End Doc.

Module Project.
Record t := {
  uuid : string;
  name : string;
  description : string;
  is_private : bool;
  is_starter_project : bool;
  created_at : string;
  updated_at : string;
  creator : Creator.t;
  docs : list Doc.t
}.
End Project.

(** The description on a card of [ProjectsSection]. *)
Definition project_description (p : Project.t) : string :=
  match Project.description p with
  | String a s =>
      let description := String a s in
      substring 0 150 description
      ++ (if 150 <? String.length description then "..." else "")
  | EmptyString => "No description"
  end.

(** ** The view that [App] returns *)

Inductive View :=
| UploadScreen
| DetailView (detail : ConversationDetail.t) (conversation : Conversation.t)
| Dashboard.

Section AppView.
Variable Date_getTime : string -> option Z.

(** The three [return]s of [App]; a [selectedConvId] that is [null] or the
    empty string is falsy. *)
Definition App_view (users : list User.t) (conversations : list Conversation.t)
  (dataLoaded : bool) (selectedConvId : option string) : View :=
  let convDetails :=
    calculateConversationDetails Date_getTime conversations users in
  if negb dataLoaded then UploadScreen
  else
    match selectedConvId with
    | Some (String a s) =>
        let id := String a s in
        match find (fun d => (ConversationDetail.uuid d =? id)%string)
                   convDetails,
              find (fun c => (Conversation.uuid c =? id)%string)
                   conversations with
        | Some detail, Some conv => DetailView detail conv
        | _, _ => Dashboard
        end
    | _ => Dashboard
    end.
End AppView.

(** ** [useTheme] *)

Inductive Theme := dark | light.

Definition Theme_text (theme : Theme) : string :=
  match theme with dark => "dark" | light => "light" end.

(** [localStorage]: the stored items. *)
Definition Storage := Obj.t string.

(** [localStorage.getItem(key)] and [localStorage.setItem(key, value)] *)
Definition getItem (storage : Storage) (key : string) : option string :=
  Obj.get_own storage key.

Definition setItem (storage : Storage) (key value : string) : Storage :=
  Obj.put storage key value.

(** The initial state of [useTheme]; [prefers_light] is what
    [matchMedia("(prefers-color-scheme: light)").matches] gives. *)
Definition initial_theme (storage : Storage) (prefers_light : bool) : Theme :=
  match getItem storage "claude-dash-theme" with
  | Some stored =>
      if (stored =? "dark")%string then dark
      else if (stored =? "light")%string then light
      else if prefers_light then light else dark
  | None => if prefers_light then light else dark
  end.

(** The effect of [useTheme] on the storage. *)
Definition store_theme (storage : Storage) (theme : Theme) : Storage :=
  setItem storage "claude-dash-theme" (Theme_text theme).

(** [toggle] *)
Definition toggle (theme : Theme) : Theme :=
  match theme with dark => light | light => dark end.

(** ** Vocabulary of the further statements *)

(** The content blocks of all messages, in order. *)
Definition items_of (msgs : list ChatMessage.t) : list ContentItem.t :=
  flat_map content_or_empty msgs.

Definition all_messages (conversations : list Conversation.t)
  : list ChatMessage.t :=
  flat_map Conversation.chat_messages conversations.

(** The conversations of a user. *)
Definition conversations_by (user : User.t)
  (conversations : list Conversation.t) : list Conversation.t :=
  filter (fun c =>
            (Account.uuid (Conversation.account c) =? User.uuid user)%string)
         conversations.

(** The account of the conversation is some user. *)
Definition resolves (users : list User.t) (conv : Conversation.t) : bool :=
  existsb (fun u =>
             (Account.uuid (Conversation.account conv) =? User.uuid u)%string)
          users.

(** The number of [tool_use] blocks that carry the name. *)
Definition uses_of (name : string) (items : list ContentItem.t) : nat :=
  List.length
    (filter (fun c =>
               match tool_name c with
               | Some n => (n =? name)%string
               | None => false
               end)
            items).

(** No [tool_use] block is named after an inherited member. *)
Definition plainly_named (items : list ContentItem.t) : Prop :=
  forall c name, In c items -> tool_name c = Some name ->
    Obj.Object_prototype name = None.

(** Both times are valid and the first is not after the second. *)
Definition no_later_than (x y : option Z) : Prop :=
  match x, y with
  | Some a, Some b => (a <= b)%Z
  | _, _ => False
  end.

(** The time is valid and is [t]. *)
Definition at_time (t : Z) (x : option Z) : bool :=
  match x with
  | Some a => (a =? t)%Z
  | None => false
  end.

(** Both counts are numbers and the second is not larger. *)
Definition not_below (a b : tally) : Prop :=
  match a, b with
  | Num m, Num n => n <= m
  | _, _ => False
  end.

(** A [tool_use] block with a name that is not empty. *)
Definition named (c : ContentItem.t) : bool :=
  match tool_name c with Some _ => true | None => false end.

(** The number held under a key. *)
Definition held (v : option tally) : nat :=
  match v with
  | Some (Num n) => n
  | _ => 0
  end.

(** The number that a counter holds, 0 for a string. *)
Definition number_of (v : tally) : nat :=
  match v with
  | Num n => n
  | Str _ => 0
  end.

Definition is_number (v : tally) : Prop := exists n, v = Num n.

(** What [JSON.parse] makes of a content: a truthy or a falsy value. *)
Definition parses_to_truthy (r : Exc JSON.t) : Prop :=
  exists v, r = inr v /\ JSON.truthy v = true.

Definition parses_to_falsy (r : Exc JSON.t) : Prop :=
  exists v, r = inr v /\ JSON.truthy v = false.

(** The elements of an array, and nothing for any other value:
    [Array.isArray(v) ? v : []]. *)
Definition array_or_empty (v : JSON.t) : list JSON.t :=
  match v with
  | JSON.Array items => items
  | _ => []
  end.

(** The text has no "/". *)
Fixpoint no_slash (s : string) : bool :=
  match s with
  | EmptyString => true
  | String a rest => negb (a =? "/")%char && no_slash rest
  end.

(** A host and data for the further examples. *)
Module Sample.

(** [JSON.parse] on a few texts; any other text is taken to be
    malformed. *)
Definition JSON_parse (text : string) : Exc JSON.t :=
  if (text =? "[]")%string then ret (JSON.Array [])
  else if (text =? "[null]")%string then ret (JSON.Array [JSON.Null])
  else if (text =? "{}")%string then ret (JSON.Object [])
  else if (text =? "null")%string then ret JSON.Null
  else if (text =? "")%string then throw "Unexpected end of JSON input"
  else throw "Unexpected token".

Definition thinker : ChatMessage.t :=
  Example.message Sender.assistant (Some "hm")
    (Some [Example.item ContentType.thinking None;
           Example.item ContentType.tool_use (Some "repl")]).

Definition stray : Conversation.t :=
  Example.conversation "c4" "Stray" "2024-01-03T08:00:00Z" "Z"
    [Example.question; thinker].

Definition four_conversations : list Conversation.t :=
  Example.three_conversations ++ [stray].

(** Two users.json entries, in different folders. *)
Definition two_user_files : JSZip.t :=
  {| JSZip.files :=
       [("old/users.json", Example.file "[null]");
        ("new/users.json", Example.file "[]");
        ("new/conversations.json", Example.file "[]")] |}.

(** A users.json that holds an object. *)
Definition object_users : JSZip.t :=
  {| JSZip.files :=
       [("users.json", Example.file "{}");
        ("conversations.json", Example.file "[]")] |}.

(** A users.json that holds [null]. *)
Definition null_users : JSZip.t :=
  {| JSZip.files :=
       [("users.json", Example.file "null");
        ("conversations.json", Example.file "[]")] |}.

End Sample.

(** * Properties *)

(** ** Facts about [Array_sort] *)

Section ArraySortFacts.
Context {A : Type}.
Variable compareFn : A -> A -> Z.

Lemma sort_insert_perm (x : A) (l : list A) :
  Permutation (sort_insert compareFn x l) (x :: l).
Proof.
  induction l as [|y l IH]; simpl.
  - apply Permutation_refl.
  - destruct (compareFn x y >? 0)%Z.
    + apply Permutation_trans with (y :: x :: l).
      * now apply perm_skip.
      * apply perm_swap.
    + apply Permutation_refl.
Qed.

Lemma Array_sort_perm (l : list A) : Permutation (Array_sort compareFn l) l.
Proof.
  induction l as [|x l IH]; simpl.
  - apply perm_nil.
  - eapply Permutation_trans.
    + apply sort_insert_perm.
    + now apply perm_skip.
Qed.

Lemma Array_sort_In (l : list A) (x : A) :
  In x (Array_sort compareFn l) <-> In x l.
Proof.
  split; apply Permutation_in.
  - apply Array_sort_perm.
  - apply Permutation_sym, Array_sort_perm.
Qed.

(** Elements that the comparator never strictly orders keep their relative
    order: this is what stability means for one class of ties. *)
Section Stable.
Variable p : A -> bool.
Hypothesis never_ordered :
  forall x y, p x = true -> p y = true -> (compareFn x y >? 0)%Z = false.

Lemma sort_insert_filter (x : A) (l : list A) :
  filter p (sort_insert compareFn x l) = filter p (x :: l).
Proof.
  induction l as [|y l IH]; [reflexivity|].
  cbn [sort_insert].
  destruct (compareFn x y >? 0)%Z eqn:Hgt; [|reflexivity].
  cbn [filter] in *. rewrite IH.
  destruct (p x) eqn:Hx, (p y) eqn:Hy; try reflexivity.
  rewrite (never_ordered x y Hx Hy) in Hgt. discriminate.
Qed.

Lemma Array_sort_filter (l : list A) :
  filter p (Array_sort compareFn l) = filter p l.
Proof.
  induction l as [|x l IH]; [reflexivity|].
  cbn [Array_sort]. rewrite sort_insert_filter.
  cbn [filter]. now rewrite IH.
Qed.
End Stable.

(** Sortedness, for a relation [R] that the comparator decides on the
    elements at hand (those satisfying [P]). *)
Section Sorted.
Variable P : A -> Prop.
Variable R : A -> A -> Prop.
Hypothesis not_after : forall x y, P x -> P y ->
  (compareFn x y >? 0)%Z = false -> R x y.
Hypothesis after : forall x y, P x -> P y ->
  (compareFn x y >? 0)%Z = true -> R y x.

Lemma sort_insert_Sorted (x : A) (l : list A) :
  P x -> Forall P l -> Sorted R l -> Sorted R (sort_insert compareFn x l).
Proof.
  intros Hx Hl Hs. induction Hs as [|y l Hs IH Hhd]; simpl.
  - repeat constructor.
  - inversion Hl as [|? ? Hy Hl']; subst.
    destruct (compareFn x y >? 0)%Z eqn:Hgt.
    + constructor; [now apply IH|].
      destruct l as [|z l]; simpl.
      * constructor. now apply after.
      * destruct (compareFn x z >? 0)%Z.
        -- constructor. now inversion Hhd.
        -- constructor. now apply after.
    + constructor; [now constructor|].
      constructor. now apply not_after.
Qed.

Lemma Array_sort_Sorted (l : list A) :
  Forall P l -> Sorted R (Array_sort compareFn l).
Proof.
  induction l as [|x l IH]; intros Hl; simpl.
  - constructor.
  - inversion Hl; subst.
    apply sort_insert_Sorted; auto.
    eapply Permutation_Forall; [apply Permutation_sym, Array_sort_perm|].
    assumption.
Qed.
End Sorted.

End ArraySortFacts.

(** ** Per-user statistics *)

Lemma list_sum_perm (l l' : list nat) :
  Permutation l l' -> list_sum l = list_sum l'.
Proof.
  induction 1; simpl; lia.
Qed.

Lemma list_sum_map_add {A} (f g : A -> nat) (l : list A) :
  list_sum (map (fun a => f a + g a) l)
  = list_sum (map f l) + list_sum (map g l).
Proof.
  induction l as [|a l IH]; simpl; lia.
Qed.

(** Exactly one entry of a duplicate-free list of users carries a given
    identifier of the list. *)
Lemma one_user_matches (users : list User.t) (k : string) (n : nat) :
  NoDup (map User.uuid users) ->
  In k (map User.uuid users) ->
  list_sum (map (fun u => if (k =? User.uuid u)%string then n else 0) users) = n.
Proof.
  induction users as [|u users IH]; simpl; intros Hnd Hin; [contradiction|].
  inversion Hnd as [|? ? Hnotin Hnd']; subst.
  destruct (String.eqb_spec k (User.uuid u)) as [->|Hne].
  - assert (Hz : forall l, ~ In (User.uuid u) (map User.uuid l) ->
        list_sum (map (fun u' =>
          if (User.uuid u =? User.uuid u')%string then n else 0) l) = 0).
    { induction l as [|v l IHl]; simpl; intros Hl; [reflexivity|].
      destruct (String.eqb_spec (User.uuid u) (User.uuid v)) as [E|_].
      - exfalso. apply Hl. left. now symmetry.
      - apply IHl. intros H. apply Hl. now right. }
    rewrite Hz by assumption. lia.
  - destruct Hin as [E|Hin]; [now symmetry in E|].
    now rewrite IH.
Qed.

Lemma Math_round_nearest (x : Q) :
  (inject_Z (Math_round x) - (1 # 2) <= x
   /\ x < inject_Z (Math_round x) + (1 # 2))%Q.
Proof.
  unfold Math_round.
  pose proof (Qfloor_le (x + (1 # 2))) as Hle.
  pose proof (Qlt_floor (x + (1 # 2))) as Hlt.
  rewrite inject_Z_plus in Hlt.
  change (inject_Z 1) with 1%Q in Hlt.
  split.
  - apply Qplus_le_l with (z := (1 # 2)%Q).
    eapply Qle_trans; [|exact Hle].
    apply Qle_lteq. right. ring.
  - apply Qplus_lt_l with (z := (1 # 2)%Q).
    eapply Qlt_le_trans; [exact Hlt|].
    apply Qle_lteq. right. ring.
Qed.

Lemma quotient_nonneg (total count : nat) : (0 <= quotient total count)%Q.
Proof.
  unfold quotient, Qdiv. apply Qmult_le_0_compat.
  - rewrite <- (Zle_Qle 0). lia.
  - apply Qinv_le_0_compat. rewrite <- (Zle_Qle 0). lia.
Qed.

Lemma Math_round_nonneg (x : Q) : (0 <= x)%Q -> (0 <= Math_round x)%Z.
Proof.
  intros Hx. unfold Math_round.
  change 0%Z with (Qfloor 0). apply Qfloor_resp_le.
  apply Qle_trans with x; [assumption|].
  rewrite <- (Qplus_0_r x) at 1. apply Qplus_le_r. discriminate.
Qed.

Lemma average_law_if (total count : nat) :
  average_law
    (if 0 <? count then Math_round (quotient total count) else 0%Z)
    total count.
Proof.
  destruct count as [|n]; simpl; [reflexivity|].
  split.
  - apply (Math_round_nearest (quotient total (S n))).
  - apply Math_round_nonneg, quotient_nonneg.
Qed.

Lemma total_chars_characters msgs : total_chars msgs = characters msgs.
Proof.
  unfold total_chars, characters.
  change (list_sum (map
            (fun m => match ChatMessage.text m with
                      | Some text => String.length text
                      | None => 0
                      end) msgs))
    with (0 + list_sum (map text_length msgs)).
  generalize 0 as sum.
  induction msgs as [|m msgs IH]; intros sum; simpl; [lia|].
  rewrite IH. lia.
Qed.

Lemma filter_is_human msgs :
  filter is_human msgs = filter (sent_by Sender.human) msgs.
Proof.
  apply filter_ext. intros m. unfold is_human, sent_by.
  now destruct (ChatMessage.sender m).
Qed.

Lemma filter_is_assistant msgs :
  filter is_assistant msgs = filter (sent_by Sender.assistant) msgs.
Proof.
  apply filter_ext. intros m. unfold is_assistant, sent_by.
  now destruct (ChatMessage.sender m).
Qed.

Section UserStatsFacts.
Variable Date_getTime : string -> option Z.

Lemma calculateStats_perm users conversations :
  Permutation (calculateStats Date_getTime users conversations)
              (map (userStats Date_getTime conversations) users).
Proof.
  apply Array_sort_perm.
Qed.

Lemma userStats_messageCount_cons c conversations user :
  UserStats.messageCount (userStats Date_getTime (c :: conversations) user)
  = (if (Account.uuid (Conversation.account c) =? User.uuid user)%string
     then List.length (Conversation.chat_messages c) else 0)
    + UserStats.messageCount (userStats Date_getTime conversations user).
Proof.
  cbn [userStats UserStats.messageCount filter].
  destruct (Account.uuid (Conversation.account c) =? User.uuid user)%string.
  - cbn [flat_map]. apply length_app.
  - reflexivity.
Qed.

(** C3. In every entry returned by [calculateStats], [humanMessages] is
    the number of the messages that the human sent in the conversations of
    the entry's user and [totalHumanChars] the number of characters of
    their texts; [avgPromptLength] is 0 when there is no such message, and
    otherwise it is that number of characters divided by that number of
    messages, rounded to the nearest integer (and not negative).
    [assistantMessages], [totalAssistantChars] and [avgResponseLength] obey
    the same law over the messages of the assistant. *)
Theorem calculateStats_average_law users conversations :
  Forall
    (fun s =>
       let human :=
         messages_sent Sender.human (UserStats.user s) conversations in
       let assistant :=
         messages_sent Sender.assistant (UserStats.user s) conversations in
       (UserStats.humanMessages s = List.length human
        /\ UserStats.totalHumanChars s = characters human
        /\ average_law (UserStats.avgPromptLength s)
                       (characters human) (List.length human))
       /\ (UserStats.assistantMessages s = List.length assistant
           /\ UserStats.totalAssistantChars s = characters assistant
           /\ average_law (UserStats.avgResponseLength s)
                          (characters assistant) (List.length assistant)))
    (calculateStats Date_getTime users conversations).
Proof.
  eapply Permutation_Forall.
  - apply Permutation_sym, calculateStats_perm.
  - apply Forall_forall. intros s Hs.
    apply in_map_iff in Hs. destruct Hs as [u [<- _]].
    unfold messages_sent.
    cbn [userStats UserStats.user UserStats.humanMessages
         UserStats.totalHumanChars UserStats.avgPromptLength
         UserStats.assistantMessages UserStats.totalAssistantChars
         UserStats.avgResponseLength].
    rewrite !total_chars_characters, filter_is_human, filter_is_assistant.
    split; (split; [reflexivity|split; [reflexivity|apply average_law_if]]).
Qed.

(** C4. When the users have pairwise distinct uuids and every conversation's
    account uuid is the uuid of some user, the [messageCount]s returned by
    [calculateStats] add up to the number of messages of all
    conversations. *)
Theorem calculateStats_messageCount_sum users conversations :
  NoDup (map User.uuid users) ->
  (forall c, In c conversations ->
     exists u, In u users
               /\ User.uuid u = Account.uuid (Conversation.account c)) ->
  list_sum (map UserStats.messageCount (calculateStats Date_getTime users conversations))
  = total_messages conversations.
Proof.
  intros Hnd Hres.
  rewrite (list_sum_perm _ _
             (Permutation_map UserStats.messageCount
                (calculateStats_perm users conversations))).
  rewrite map_map. unfold total_messages.
  induction conversations as [|c cs IH].
  - simpl. clear Hnd Hres. induction users as [|u us IHu]; [reflexivity|].
    simpl. exact IHu.
  - rewrite (map_ext _ _ (fun u => userStats_messageCount_cons c cs u)).
    rewrite list_sum_map_add.
    rewrite IH by (intros c' Hc'; apply Hres; now right).
    cbn [map list_sum].
    rewrite one_user_matches; [reflexivity|assumption|].
    destruct (Hres c (or_introl eq_refl)) as [u [Hu Heq]].
    rewrite <- Heq. now apply in_map.
Qed.

(** C5. The list returned by [calculateStats] is in descending order of
    [conversationCount], and for every count the entries that have it
    appear in the order in which their users appear in the input. *)
Theorem calculateStats_sorted_stable users conversations :
  StronglySorted
    (fun a b => UserStats.conversationCount b <= UserStats.conversationCount a)
    (calculateStats Date_getTime users conversations)
  /\ forall k,
       map UserStats.user
           (filter (fun s => UserStats.conversationCount s =? k)
                   (calculateStats Date_getTime users conversations))
       = filter (fun u => conversations_of conversations u =? k) users.
Proof.
  split.
  - apply Sorted_StronglySorted.
    + intros a b c Hab Hbc. lia.
    + apply (Array_sort_Sorted _ (fun _ => True)).
      * intros x y _ _ H. rewrite Z.gtb_ltb in H. apply Z.ltb_ge in H. lia.
      * intros x y _ _ H. rewrite Z.gtb_ltb in H. apply Z.ltb_lt in H. lia.
      * apply Forall_forall. trivial.
  - intros k. unfold calculateStats.
    rewrite Array_sort_filter.
    + rewrite filter_map_swap, map_map. cbn [userStats UserStats.user].
      rewrite map_id. reflexivity.
    + intros x y Hx Hy.
      apply Nat.eqb_eq in Hx. apply Nat.eqb_eq in Hy.
      rewrite Hx, Hy, Z.sub_diag. reflexivity.
Qed.

End UserStatsFacts.

(** ** Per-conversation details *)

Section ConversationDetailFacts.
Variable Date_getTime : string -> option Z.

Lemma calculateConversationDetails_perm conversations users :
  Permutation (calculateConversationDetails Date_getTime conversations users)
              (map (conversationDetail users) conversations).
Proof.
  apply Array_sort_perm.
Qed.

Lemma getUserName_none users uuid :
  (forall u, In u users -> User.uuid u <> uuid) ->
  getUserName users uuid = "Unknown".
Proof.
  intros Hnone. unfold getUserName.
  destruct (find _ users) as [u|] eqn:Hfind; [|reflexivity].
  apply find_some in Hfind. destruct Hfind as [Hin Heq].
  apply String.eqb_eq in Heq. now elim (Hnone u Hin).
Qed.

Lemma getUserName_first before u after uuid :
  (forall v, In v before -> User.uuid v <> uuid) ->
  User.uuid u = uuid ->
  getUserName (before ++ u :: after) uuid = User.full_name u.
Proof.
  intros Hbefore Hu. unfold getUserName.
  induction before as [|v before IH]; simpl.
  - rewrite Hu, String.eqb_refl. reflexivity.
  - destruct (String.eqb_spec (User.uuid v) uuid) as [E|_].
    + elim (Hbefore v (or_introl eq_refl) E).
    + apply IH. intros w Hw. apply Hbefore. now right.
Qed.

(** C7, as amended. Every conversation has its detail in the list returned
    by [calculateConversationDetails]; its name is "Untitled" when the
    conversation's name is empty and the conversation's own name otherwise,
    and its userName is "Unknown" when no user has the account's uuid and
    the full_name of the first such user otherwise. *)
Theorem calculateConversationDetails_fallbacks conversations users conv :
  In conv conversations ->
  exists d,
    In d (calculateConversationDetails Date_getTime conversations users)
    /\ ConversationDetail.uuid d = Conversation.uuid conv
    /\ (Conversation.name conv = "" -> ConversationDetail.name d = "Untitled")
    /\ (Conversation.name conv <> "" ->
        ConversationDetail.name d = Conversation.name conv)
    /\ ((forall u, In u users ->
           User.uuid u <> Account.uuid (Conversation.account conv)) ->
        ConversationDetail.userName d = "Unknown")
    /\ (forall before u after,
          users = before ++ u :: after ->
          (forall v, In v before ->
             User.uuid v <> Account.uuid (Conversation.account conv)) ->
          User.uuid u = Account.uuid (Conversation.account conv) ->
          ConversationDetail.userName d = User.full_name u).
Proof.
  intros Hin. exists (conversationDetail users conv).
  split.
  - eapply Permutation_in.
    + apply Permutation_sym, calculateConversationDetails_perm.
    + now apply in_map.
  - cbn [conversationDetail ConversationDetail.uuid ConversationDetail.name
         ConversationDetail.userName].
    repeat split.
    + intros ->. reflexivity.
    + intros Hne. destruct (Conversation.name conv); [now elim Hne|reflexivity].
    + apply getUserName_none.
    + intros before u after -> Hbefore Hu. now apply getUserName_first.
Qed.

End ConversationDetailFacts.

(** ** Totality and tolerance of absent members *)

Lemma fold_left_map_ext {A B C} (f : A -> C -> A) (g : A -> B -> A)
  (h : B -> C) (l : list B) (a : A) :
  (forall a b, f a (h b) = g a b) ->
  fold_left f (map h l) a = fold_left g l a.
Proof.
  intros Hfg. revert a.
  induction l as [|b l IH]; intros a; simpl; [reflexivity|].
  now rewrite Hfg, IH.
Qed.

Lemma filter_map_ext {A B} (p : B -> bool) (q : A -> bool) (h : A -> B)
  (l : list A) :
  (forall a, p (h a) = q a) ->
  filter p (map h l) = map h (filter q l).
Proof.
  intros Hpq. induction l as [|a l IH]; simpl; [reflexivity|].
  rewrite Hpq. destruct (q a); simpl; now rewrite IH.
Qed.

Lemma text_length_defaults m :
  text_length (message_with_defaults m) = text_length m.
Proof.
  unfold text_length. simpl. now destruct (ChatMessage.text m).
Qed.

Lemma total_chars_defaults msgs :
  total_chars (map message_with_defaults msgs) = total_chars msgs.
Proof.
  unfold total_chars. apply fold_left_map_ext.
  intros a m. now rewrite text_length_defaults.
Qed.

Lemma scan_messages_defaults msgs :
  scan_messages (map message_with_defaults msgs) = scan_messages msgs.
Proof.
  unfold scan_messages. now apply fold_left_map_ext.
Qed.

Lemma flat_map_defaults convs :
  flat_map Conversation.chat_messages (map with_defaults convs)
  = map message_with_defaults (flat_map Conversation.chat_messages convs).
Proof.
  induction convs as [|c convs IH]; simpl; [reflexivity|].
  now rewrite IH, map_app.
Qed.

Lemma count_defaults convs counts :
  fold_left count_conversation (map with_defaults convs) counts
  = fold_left count_conversation convs counts.
Proof.
  apply fold_left_map_ext. intros a c.
  unfold count_conversation. simpl. now apply fold_left_map_ext.
Qed.

Lemma day_step_defaults convs dayMap :
  fold_left day_step (map with_defaults convs) dayMap
  = fold_left day_step convs dayMap.
Proof.
  apply fold_left_map_ext. intros a c.
  unfold day_step. simpl. now rewrite length_map.
Qed.

Section Tolerance.
Variable Date_getTime : string -> option Z.
Variable localeCompare : string -> string -> Z.

Lemma latest_defaults rest c0 :
  fold_left
    (fun latest c =>
       if time_gt (Date_getTime (Conversation.updated_at c))
                  (Date_getTime (Conversation.updated_at latest))
       then c else latest)
    (map with_defaults rest) (with_defaults c0)
  = with_defaults
      (fold_left
         (fun latest c =>
            if time_gt (Date_getTime (Conversation.updated_at c))
                       (Date_getTime (Conversation.updated_at latest))
            then c else latest)
         rest c0).
Proof.
  revert c0. induction rest as [|c rest IH]; intros c0; simpl; [reflexivity|].
  destruct (time_gt _ _); apply IH.
Qed.

Lemma userStats_defaults convs user :
  userStats Date_getTime (map with_defaults convs) user
  = userStats Date_getTime convs user.
Proof.
  unfold userStats.
  rewrite (filter_map_ext _
             (fun c => (Account.uuid (Conversation.account c)
                        =? User.uuid user)%string))
    by reflexivity.
  rewrite flat_map_defaults.
  rewrite (filter_map_ext _ is_human) by reflexivity.
  rewrite (filter_map_ext _ is_assistant) by reflexivity.
  rewrite !total_chars_defaults, scan_messages_defaults, !length_map.
  f_equal.
  destruct (filter _ convs) as [|c0 rest]; [reflexivity|].
  cbn [map]. now rewrite latest_defaults.
Qed.

Lemma conversationDetail_defaults users conv :
  conversationDetail users (with_defaults conv) = conversationDetail users conv.
Proof.
  unfold conversationDetail. cbn [with_defaults Conversation.chat_messages
    Conversation.uuid Conversation.name Conversation.account
    Conversation.created_at].
  rewrite (filter_map_ext _ is_human) by reflexivity.
  rewrite (filter_map_ext _ is_assistant) by reflexivity.
  now rewrite !total_chars_defaults, scan_messages_defaults, !length_map.
Qed.

(** C2. Each derivation returns a list for every input; with no users
    [calculateStats] returns the empty list, and with no conversations the
    other three do; [calculateStats] has one entry per user and
    [calculateConversationDetails] one per conversation; and a message whose
    text or content is absent is read as one whose text or content is
    empty. *)
Theorem derivations_total users conversations :
  (calculateStats Date_getTime [] conversations = []
   /\ calculateDailyActivity localeCompare [] = []
   /\ calculateToolUsage [] = []
   /\ calculateConversationDetails Date_getTime [] users = [])
  /\ (List.length (calculateStats Date_getTime users conversations)
      = List.length users
      /\ List.length
           (calculateConversationDetails Date_getTime conversations users)
         = List.length conversations)
  /\ (calculateStats Date_getTime users (map with_defaults conversations)
      = calculateStats Date_getTime users conversations
      /\ calculateDailyActivity localeCompare (map with_defaults conversations)
         = calculateDailyActivity localeCompare conversations
      /\ calculateToolUsage (map with_defaults conversations)
         = calculateToolUsage conversations
      /\ calculateConversationDetails Date_getTime
           (map with_defaults conversations) users
         = calculateConversationDetails Date_getTime conversations users).
Proof.
  split; [repeat split|split; [split|repeat split]].
  - unfold calculateStats.
    rewrite (Permutation_length (Array_sort_perm _ _)). apply length_map.
  - unfold calculateConversationDetails.
    rewrite (Permutation_length (Array_sort_perm _ _)). apply length_map.
  - unfold calculateStats. f_equal.
    apply map_ext. intros u. apply userStats_defaults.
  - unfold calculateDailyActivity. now rewrite day_step_defaults.
  - unfold calculateToolUsage. now rewrite count_defaults.
  - unfold calculateConversationDetails. f_equal.
    rewrite map_map. apply map_ext. intros c.
    apply conversationDetail_defaults.
Qed.

End Tolerance.

(** ** The archive loader *)

Section LoaderFacts.
Variable JSON_parse : string -> Exc JSON.t.

Lemma scan_entry_unwanted found entry :
  wanted entry = false -> scan_entry JSON_parse found entry = ret found.
Proof.
  destruct entry as [path zipEntry].
  unfold wanted, matches, scan_entry. cbn [fst snd].
  destruct (ZipObject.dir zipEntry); [reflexivity|]. cbn [negb andb].
  destruct (fileName path =? "users.json")%string; [discriminate|].
  destruct (fileName path =? "conversations.json")%string; [discriminate|].
  destruct (fileName path =? "projects.json")%string; [discriminate|].
  reflexivity.
Qed.

Lemma scan_entry_wanted found entry :
  wanted entry = true ->
  scan_entry JSON_parse found entry
  = (v <- JSON_parse (ZipObject.content (snd entry)) ;;
     ret {| usersData :=
              if matches "users.json" entry then v else usersData found;
            conversationsData :=
              if matches "conversations.json" entry then v
              else conversationsData found;
            projectsData :=
              if matches "projects.json" entry then v
              else projectsData found |}).
Proof.
  destruct entry as [path zipEntry], found as [u c p].
  unfold wanted, matches, scan_entry.
  cbn [fst snd usersData conversationsData projectsData].
  destruct (ZipObject.dir zipEntry); [discriminate|]. cbn [negb andb].
  destruct (String.eqb_spec (fileName path) "users.json") as [E|_];
    [rewrite E; reflexivity|].
  destruct (String.eqb_spec (fileName path) "conversations.json") as [E|_];
    [rewrite E; reflexivity|].
  destruct (String.eqb_spec (fileName path) "projects.json") as [E|_];
    [reflexivity|discriminate].
Qed.

(** A scan either stops at the first wanted entry that does not parse, with
    the parser's message, or reads every wanted entry. *)
Lemma scan_entries_outcome entries found :
  match scan_entries JSON_parse found entries with
  | inl message =>
      exists entry, In entry entries /\ wanted entry = true
        /\ JSON_parse (ZipObject.content (snd entry)) = inl message
  | inr found' =>
      (forall entry, In entry entries -> wanted entry = true ->
         parses (JSON_parse (ZipObject.content (snd entry))))
      /\ usersData found' = pick JSON_parse "users.json" entries (usersData found)
      /\ conversationsData found'
         = pick JSON_parse "conversations.json" entries (conversationsData found)
      /\ projectsData found'
         = pick JSON_parse "projects.json" entries (projectsData found)
  end.
Proof.
  revert found. induction entries as [|entry entries IH]; intros found.
  - simpl. repeat split. intros entry [].
  - cbn [scan_entries].
    destruct (wanted entry) eqn:Hw.
    + rewrite (scan_entry_wanted _ _ Hw).
      destruct (JSON_parse (ZipObject.content (snd entry))) as [msg|v] eqn:Hp.
      * cbn [bind]. exists entry. split; [now left|now split].
      * cbn [bind ret]. specialize (IH
          {| usersData :=
               if matches "users.json" entry then v else usersData found;
             conversationsData :=
               if matches "conversations.json" entry then v
               else conversationsData found;
             projectsData :=
               if matches "projects.json" entry then v
               else projectsData found |}).
        destruct (scan_entries JSON_parse _ entries) as [msg|found'].
        -- destruct IH as [e [He H]]. exists e. split; [now right|exact H].
        -- destruct IH as [Hall [Hu [Hc Hpr]]].
           cbn [usersData conversationsData projectsData] in Hu, Hc, Hpr.
           unfold pick. cbn [fold_left]. rewrite Hp.
           split; [|now repeat split].
           intros e [<-|He] Hwe; [now exists v|now apply Hall].
    + rewrite (scan_entry_unwanted _ _ Hw). cbn [bind ret].
      specialize (IH found).
      unfold wanted in Hw. apply orb_false_iff in Hw. destruct Hw as [Hw Hp].
      apply orb_false_iff in Hw. destruct Hw as [Hu Hc].
      destruct (scan_entries JSON_parse found entries) as [msg|found'].
      * destruct IH as [e [He H]]. exists e. split; [now right|exact H].
      * destruct IH as [Hall IH]. unfold pick. cbn [fold_left].
        rewrite Hu, Hc, Hp. split; [|exact IH].
        intros e [<-|He] Hwe; [|now apply Hall].
        unfold wanted in Hwe. rewrite Hu, Hc, Hp in Hwe. discriminate.
Qed.

Lemma pick_absent name entries initial :
  (forall entry, In entry entries -> matches name entry = false) ->
  pick JSON_parse name entries initial = initial.
Proof.
  unfold pick. revert initial.
  induction entries as [|entry entries IH]; intros initial Habs;
    [reflexivity|].
  cbn [fold_left]. rewrite (Habs entry (or_introl eq_refl)).
  apply IH. intros e He. apply Habs. now right.
Qed.

(** When some entry has the name and all of that name parse, the variable
    holds the value parsed from one of them. *)
Lemma pick_present name entries initial :
  (exists entry, In entry entries /\ matches name entry = true) ->
  (forall entry, In entry entries -> matches name entry = true ->
     parses (JSON_parse (ZipObject.content (snd entry)))) ->
  exists entry, In entry entries /\ matches name entry = true
    /\ JSON_parse (ZipObject.content (snd entry))
       = inr (pick JSON_parse name entries initial).
Proof.
  unfold pick. revert initial.
  induction entries as [|entry entries IH]; intros initial [e [He Hm]] Hall.
  - destruct He.
  - cbn [fold_left].
    assert (Hall' : forall e', In e' entries -> matches name e' = true ->
              parses (JSON_parse (ZipObject.content (snd e')))).
    { intros e' He'. apply Hall. now right. }
    destruct (existsb (matches name) entries) eqn:Hlater.
    + apply existsb_exists in Hlater.
      destruct (IH (if matches name entry
                    then match JSON_parse (ZipObject.content (snd entry)) with
                         | inr v => v
                         | inl _ => initial
                         end
                    else initial) Hlater Hall') as [e' [He' H]].
      exists e'. split; [now right|exact H].
    + assert (Hnone : forall e', In e' entries -> matches name e' = false).
      { intros e' He'. destruct (matches name e') eqn:Hme'; [|reflexivity].
        assert (existsb (matches name) entries = true)
          by (apply existsb_exists; now exists e').
        congruence. }
      fold (pick JSON_parse name entries
              (if matches name entry
               then match JSON_parse (ZipObject.content (snd entry)) with
                    | inr v => v
                    | inl _ => initial
                    end
               else initial)).
      rewrite (pick_absent _ _ _ Hnone).
      destruct He as [->|He]; [|rewrite (Hnone e He) in Hm; discriminate].
      rewrite Hm.
      destruct (Hall e (or_introl eq_refl) Hm) as [v Hv]. rewrite Hv.
      exists e. repeat split; auto. now left.
Qed.

(** A failed load leaves the collections as they were. *)
Lemma processZipFile_failure state zip message :
  load JSON_parse zip = inl message ->
  processZipFile JSON_parse state (inr zip)
  = {| users := users state;
       conversations := conversations state;
       projects := projects state;
       dataLoaded := dataLoaded state;
       loading := false;
       error := Some message |}.
Proof.
  intros Hload. unfold processZipFile. cbn [bind]. now rewrite Hload.
Qed.

Lemma not_present_absent name zip :
  ~ present name zip ->
  forall entry, In entry (JSZip.files zip) -> matches name entry = false.
Proof.
  intros Hnot entry Hin. destruct (matches name entry) eqn:Hm; [|reflexivity].
  elim Hnot. now exists entry.
Qed.

Lemma wanted_cases entry :
  wanted entry = true ->
  matches "users.json" entry = true
  \/ matches "conversations.json" entry = true
  \/ matches "projects.json" entry = true.
Proof.
  unfold wanted. intros H.
  apply orb_true_iff in H. destruct H as [H|H]; [|now right; right].
  apply orb_true_iff in H. destruct H as [H|H]; [now left|now right; left].
Qed.

(** C9. When users.json and conversations.json are present and parse to
    arrays, and projects.json is present and parses to a value that is not
    an array, the load succeeds: no error, the data marked as loaded, the
    users and conversations those of the archive, and no projects. *)
Theorem processZipFile_non_array_projects state zip :
  present "users.json" zip ->
  every JSON_parse "users.json" zip parses_to_array ->
  present "conversations.json" zip ->
  every JSON_parse "conversations.json" zip parses_to_array ->
  present "projects.json" zip ->
  every JSON_parse "projects.json" zip parses_to_non_array ->
  let after := processZipFile JSON_parse state (inr zip) in
  error after = None
  /\ dataLoaded after = true
  /\ loading after = false
  /\ projects after = []
  /\ (exists entry, In entry (JSZip.files zip)
        /\ matches "users.json" entry = true
        /\ JSON_parse (ZipObject.content (snd entry))
           = inr (JSON.Array (users after)))
  /\ (exists entry, In entry (JSZip.files zip)
        /\ matches "conversations.json" entry = true
        /\ JSON_parse (ZipObject.content (snd entry))
           = inr (JSON.Array (conversations after))).
Proof.
  intros Hu Heu Hc Hec Hp Hep after. subst after.
  assert (Hparse : forall name P,
            every JSON_parse name zip P -> (forall r, P r -> parses r) ->
            forall entry, In entry (JSZip.files zip) ->
              matches name entry = true ->
              parses (JSON_parse (ZipObject.content (snd entry)))).
  { intros name P Hev HP entry Hin Hm. apply (HP _ (Hev entry Hin Hm)). }
  assert (Hpu := Hparse _ _ Heu
                   (fun r '(ex_intro _ items E) => ex_intro _ _ E)).
  assert (Hpc := Hparse _ _ Hec
                   (fun r '(ex_intro _ items E) => ex_intro _ _ E)).
  assert (Hpp := Hparse _ _ Hep
                   (fun r '(ex_intro _ v (conj E _)) => ex_intro _ _ E)).
  unfold processZipFile, load. cbn [bind].
  pose proof (scan_entries_outcome (JSZip.files zip) nothing_found) as Hscan.
  destruct (scan_entries JSON_parse nothing_found (JSZip.files zip))
    as [message|found].
  - exfalso. destruct Hscan as [entry [Hin [Hw Hfail]]].
    destruct (wanted_cases _ Hw) as [Hm|[Hm|Hm]];
      [destruct (Hpu entry Hin Hm) as [v Hv]
      |destruct (Hpc entry Hin Hm) as [v Hv]
      |destruct (Hpp entry Hin Hm) as [v Hv]];
      rewrite Hv in Hfail; discriminate.
  - destruct Hscan as [_ [Hfu [Hfc Hfp]]].
    destruct (pick_present "users.json" _ JSON.Null Hu Hpu)
      as [eu [Hinu [Hmu Hvu]]].
    destruct (pick_present "conversations.json" _ JSON.Null Hc Hpc)
      as [ec [Hinc [Hmc Hvc]]].
    destruct (pick_present "projects.json" _ (JSON.Array []) Hp Hpp)
      as [ep [Hinp [Hmp Hvp]]].
    cbn [nothing_found usersData conversationsData projectsData]
      in Hfu, Hfc, Hfp.
    rewrite <- Hfu in Hvu. rewrite <- Hfc in Hvc. rewrite <- Hfp in Hvp.
    destruct (Heu eu Hinu Hmu) as [us Hus].
    destruct (Hec ec Hinc Hmc) as [cs Hcs].
    destruct (Hep ep Hinp Hmp) as [v [Hv Hna]].
    rewrite Hus in Hvu. rewrite Hcs in Hvc. rewrite Hv in Hvp.
    injection Hvu as Hvu. injection Hvc as Hvc. injection Hvp as Hvp.
    cbn [bind]. rewrite <- Hvu, <- Hvc, <- Hvp. cbn [JSON.truthy negb orb ret].
    cbn [error dataLoaded loading projects users conversations].
    repeat split.
    + destruct v; try reflexivity. discriminate.
    + exists eu. now repeat split.
    + exists ec. now repeat split.
Qed.

(** C1, as amended. When some projects.json entry has a content that fails
    to parse, the load fails: the error is the parser's message for an entry
    the loader reads, and the users, conversations, projects and loaded
    flag are those of the state before. *)
Theorem processZipFile_malformed_projects state zip :
  (exists entry, In entry (JSZip.files zip)
     /\ matches "projects.json" entry = true
     /\ fails_to_parse (JSON_parse (ZipObject.content (snd entry)))) ->
  let after := processZipFile JSON_parse state (inr zip) in
  (exists entry message, In entry (JSZip.files zip)
     /\ wanted entry = true
     /\ JSON_parse (ZipObject.content (snd entry)) = inl message
     /\ error after = Some message)
  /\ loading after = false
  /\ same_data state after.
Proof.
  intros [bad [Hin [Hm [msg Hbad]]]] after. subst after.
  pose proof (scan_entries_outcome (JSZip.files zip) nothing_found) as Hscan.
  destruct (scan_entries JSON_parse nothing_found (JSZip.files zip))
    as [message|found] eqn:Hs.
  - rewrite (processZipFile_failure state zip message)
      by (unfold load; now rewrite Hs).
    destruct Hscan as [entry [Hine [Hw Hfail]]].
    split; [|now repeat split].
    exists entry, message. now repeat split.
  - exfalso. destruct Hscan as [Hall _].
    assert (Hw : wanted bad = true)
      by (unfold wanted; rewrite Hm; apply orb_true_r).
    destruct (Hall bad Hin Hw) as [v Hv]. congruence.
Qed.

(** C8, as amended. When users.json or conversations.json is absent the
    load fails with one error and leaves the users, conversations, projects
    and loaded flag of the state before.  The error is the message naming
    both required files whenever every entry the loader reads parses;
    otherwise it is the parser's message for an entry the loader reads. *)
Theorem processZipFile_missing_required state zip :
  ~ present "users.json" zip \/ ~ present "conversations.json" zip ->
  let after := processZipFile JSON_parse state (inr zip) in
  (exists message, error after = Some message)
  /\ same_data state after
  /\ ((forall entry, In entry (JSZip.files zip) -> wanted entry = true ->
         parses (JSON_parse (ZipObject.content (snd entry)))) ->
      error after
      = Some "Zip must contain users.json and conversations.json")
  /\ (~ (forall entry, In entry (JSZip.files zip) -> wanted entry = true ->
           parses (JSON_parse (ZipObject.content (snd entry)))) ->
      exists entry message, In entry (JSZip.files zip)
        /\ wanted entry = true
        /\ JSON_parse (ZipObject.content (snd entry)) = inl message
        /\ error after = Some message)
  /\ loading after = false.
Proof.
  intros Habsent after. subst after.
  pose proof (scan_entries_outcome (JSZip.files zip) nothing_found) as Hscan.
  destruct (scan_entries JSON_parse nothing_found (JSZip.files zip))
    as [message|found] eqn:Hs.
  - rewrite (processZipFile_failure state zip message)
      by (unfold load; now rewrite Hs).
    destruct Hscan as [entry [Hin [Hw Hfail]]].
    split; [now exists message|]. split; [now repeat split|].
    split; [|split; [|reflexivity]].
    + intros Hall. exfalso.
      destruct (Hall entry Hin Hw) as [v Hv]. congruence.
    + intros _. exists entry, message. now repeat split.
  - destruct Hscan as [Hall [Hfu [Hfc _]]].
    assert (Hload : load JSON_parse zip = inl missing_message).
    { unfold load. rewrite Hs. cbn [bind].
      destruct Habsent as [Hno|Hno];
        [rewrite Hfu|rewrite Hfc];
        rewrite (pick_absent _ _ _ (not_present_absent _ _ Hno));
        cbn [nothing_found usersData conversationsData JSON.truthy negb orb];
        [reflexivity|now rewrite orb_true_r]. }
    rewrite (processZipFile_failure state zip _ Hload).
    split; [now exists missing_message|]. split; [now repeat split|].
    split; [reflexivity|]. split; [|reflexivity].
    intros Hnot. elim Hnot. exact Hall.
Qed.

End LoaderFacts.

(** ** Facts about objects *)

Section ObjFacts.
Context {V : Type}.
Implicit Types (o : Obj.t V) (k : string) (v : V).

Lemma get_own_put o k v k' :
  Obj.get_own (Obj.put o k v) k'
  = if (k =? k')%string then Some v else Obj.get_own o k'.
Proof.
  induction o as [|[k0 v0] o IH]; cbn [Obj.put Obj.get_own].
  - reflexivity.
  - destruct (String.eqb_spec k0 k) as [->|Hne]; cbn [Obj.get_own].
    + now destruct (k =? k')%string.
    + rewrite IH.
      destruct (String.eqb_spec k0 k') as [->|_]; [|reflexivity].
      destruct (String.eqb_spec k k') as [E|_]; [|reflexivity].
      now elim Hne.
Qed.

Lemma keys_put o k v k' :
  In k' (map fst (Obj.put o k v)) <-> k' = k \/ In k' (map fst o).
Proof.
  induction o as [|[k0 v0] o IH]; cbn [Obj.put map fst In].
  - intuition.
  - destruct (String.eqb_spec k0 k) as [->|Hne]; cbn [map fst In].
    + intuition.
    + rewrite IH. intuition.
Qed.

Lemma NoDup_put o k v :
  NoDup (map fst o) -> NoDup (map fst (Obj.put o k v)).
Proof.
  induction o as [|[k0 v0] o IH]; cbn [Obj.put map fst]; intros Hnd.
  - constructor; [intros []|constructor].
  - inversion Hnd as [|? ? Hnotin Hnd']; subst.
    destruct (String.eqb_spec k0 k) as [->|Hne]; cbn [map fst].
    + now constructor.
    + constructor; [|now apply IH].
      rewrite keys_put. intros [E|Hin]; [now elim Hne|contradiction].
Qed.

Lemma get_own_In o k v : Obj.get_own o k = Some v -> In (k, v) o.
Proof.
  induction o as [|[k0 v0] o IH]; cbn [Obj.get_own]; [discriminate|].
  destruct (String.eqb_spec k0 k) as [->|_].
  - intros [= ->]. now left.
  - intros H. right. now apply IH.
Qed.

Lemma In_get_own o k v :
  NoDup (map fst o) -> In (k, v) o -> Obj.get_own o k = Some v.
Proof.
  induction o as [|[k0 v0] o IH]; cbn [Obj.get_own map fst];
    intros Hnd Hin; [destruct Hin|].
  inversion Hnd as [|? ? Hnotin Hnd']; subst.
  destruct Hin as [[= -> ->]|Hin].
  - now rewrite String.eqb_refl.
  - destruct (String.eqb_spec k0 k) as [->|_]; [|now apply IH].
    elim Hnotin. change k with (fst (k, v)). now apply in_map.
Qed.

Lemma get_own_key o k :
  In k (map fst o) <-> Obj.get_own o k <> None.
Proof.
  induction o as [|[k0 v0] o IH]; cbn [Obj.get_own map fst In].
  - intuition.
  - destruct (String.eqb_spec k0 k) as [->|Hne].
    + split; [discriminate|now left].
    + rewrite <- IH. intuition.
Qed.

Lemma filter_split_perm {A} (p : A -> bool) (l : list A) :
  Permutation (filter p l ++ filter (fun a => negb (p a)) l) l.
Proof.
  induction l as [|a l IH]; cbn [filter]; [constructor|].
  destruct (p a); cbn [negb app].
  - now constructor.
  - apply Permutation_sym, Permutation_cons_app, Permutation_sym, IH.
Qed.

Lemma entries_perm o : Permutation (Obj.entries o) o.
Proof.
  unfold Obj.entries.
  eapply Permutation_trans; [|apply (filter_split_perm Obj.is_index)].
  apply Permutation_app_tail, Array_sort_perm.
Qed.

End ObjFacts.

(** ** Daily activity *)

Lemma iso_date_length k : iso_date k = true -> String.length k = 10.
Proof.
  do 10 (destruct k as [|? k]; [discriminate|]).
  destruct k; [reflexivity|discriminate].
Qed.

(** No date is the name of an inherited member. *)
Lemma iso_date_not_inherited k :
  iso_date k = true ->
  Obj.Object_prototype k = None /\ (k =? "__proto__")%string = false.
Proof.
  intros Hk.
  assert (Hne : forall c, iso_date c = false -> (k =? c)%string = false).
  { intros c Hc. destruct (String.eqb_spec k c) as [->|_]; [|reflexivity].
    congruence. }
  unfold Obj.Object_prototype. cbn [existsb].
  rewrite !Hne by reflexivity. now split.
Qed.

Lemma prefix_iso_date k s :
  iso_date k = true -> prefix k s = (slice_0_10 s =? k)%string.
Proof.
  intros Hk. unfold slice_0_10. rewrite <- (iso_date_length k Hk).
  destruct (String.eqb_spec (substring 0 (String.length k) s) k) as [E|Hne].
  - now apply prefix_correct.
  - destruct (prefix k s) eqn:Hp; [|reflexivity].
    apply prefix_correct in Hp. contradiction.
Qed.

Lemma day_step_get dayMap conv k' :
  dated conv ->
  Obj.get_own (day_step dayMap conv) k'
  = if (slice_0_10 (Conversation.created_at conv) =? k')%string
    then Some (add_conversation
                 (or_zero_day
                    (Obj.get_own dayMap
                       (slice_0_10 (Conversation.created_at conv))))
                 conv)
    else Obj.get_own dayMap k'.
Proof.
  unfold dated, day_step.
  set (k := slice_0_10 (Conversation.created_at conv)). intros Hk.
  destruct (iso_date_not_inherited k Hk) as [Hproto Hne].
  unfold Obj.get, Obj.set. rewrite Hproto, Hne.
  destruct (Obj.get_own dayMap k) as [d|] eqn:Hget.
  - rewrite Hget, get_own_put. reflexivity.
  - rewrite get_own_put, String.eqb_refl, !get_own_put.
    now destruct (k =? k')%string.
Qed.

Lemma day_step_keys dayMap conv k' :
  dated conv ->
  In k' (map fst (day_step dayMap conv))
  <-> k' = slice_0_10 (Conversation.created_at conv) \/ In k' (map fst dayMap).
Proof.
  intros Hk. rewrite !get_own_key, (day_step_get _ _ _ Hk).
  destruct (String.eqb_spec (slice_0_10 (Conversation.created_at conv)) k')
    as [E|Hne].
  - split; [now left|discriminate].
  - split; [now right|]. intros [E|H]; [now elim Hne|exact H].
Qed.

Lemma day_step_NoDup dayMap conv :
  dated conv -> NoDup (map fst dayMap) -> NoDup (map fst (day_step dayMap conv)).
Proof.
  unfold dated, day_step.
  set (k := slice_0_10 (Conversation.created_at conv)). intros Hk Hnd.
  destruct (iso_date_not_inherited k Hk) as [Hproto Hne].
  unfold Obj.get, Obj.set. rewrite Hproto, Hne.
  destruct (Obj.get_own dayMap k) as [d|] eqn:Hget.
  - rewrite Hget. now apply NoDup_put.
  - rewrite get_own_put, String.eqb_refl. now do 2 apply NoDup_put.
Qed.

Lemma day_total_cons d conv l :
  day_total (add_conversation d conv) l = day_total d (conv :: l).
Proof.
  unfold day_total, add_conversation, total_messages.
  cbn [DayData.conversations DayData.messages List.length map list_sum].
  f_equal; simpl; lia.
Qed.

(** What the loop leaves under a key: the running totals of the
    conversations of that day. *)
Lemma fold_day_step_get conversations :
  Forall dated conversations ->
  forall dayMap k,
    Obj.get_own (fold_left day_step conversations dayMap) k
    = match filter (fun c => (slice_0_10 (Conversation.created_at c) =? k)%string)
                   conversations with
      | [] => Obj.get_own dayMap k
      | l => Some (day_total (or_zero_day (Obj.get_own dayMap k)) l)
      end.
Proof.
  induction 1 as [|conv conversations Hconv _ IH]; intros dayMap k;
    [reflexivity|].
  cbn [fold_left filter]. rewrite IH, (day_step_get _ _ _ Hconv).
  destruct (String.eqb_spec (slice_0_10 (Conversation.created_at conv)) k)
    as [->|_]; [|reflexivity].
  destruct (filter _ conversations) as [|c l].
  - f_equal. unfold day_total, add_conversation, total_messages.
    cbn [DayData.conversations DayData.messages List.length map].
    f_equal; simpl; lia.
  - cbn [or_zero_day]. now rewrite day_total_cons.
Qed.

Lemma fold_day_step_NoDup conversations :
  Forall dated conversations ->
  forall dayMap,
    NoDup (map fst dayMap) ->
    NoDup (map fst (fold_left day_step conversations dayMap)).
Proof.
  induction 1 as [|conv conversations Hconv _ IH]; intros dayMap Hnd;
    [assumption|].
  cbn [fold_left]. apply IH. now apply day_step_NoDup.
Qed.

Lemma ltb_compare (a b : string) : String.ltb a b = true <-> String.compare a b = Lt.
Proof.
  unfold String.ltb. destruct (String.compare a b); split; congruence.
Qed.

Lemma ltb_trans (a b c : string) :
  String.ltb a b = true -> String.ltb b c = true -> String.ltb a c = true.
Proof.
  rewrite !ltb_compare.
  change String.compare with OrderedTypeEx.String_as_OT.cmp.
  rewrite !OrderedTypeEx.String_as_OT.cmp_lt.
  apply OrderedTypeEx.String_as_OT.lt_trans.
Qed.

Lemma StronglySorted_map {A B} (f : A -> B) (R : B -> B -> Prop) (l : list A) :
  StronglySorted (fun x y => R (f x) (f y)) l -> StronglySorted R (map f l).
Proof.
  induction 1 as [|a l Hs IH Hall]; cbn [map]; constructor.
  - exact IH.
  - apply Forall_map. exact Hall.
Qed.

(** A list of entries with distinct keys that is ascending is strictly
    ascending. *)
Lemma Sorted_keys_strict {V} (l : list (string * V)) :
  NoDup (map fst l) ->
  Sorted (fun x y => String.compare (fst x) (fst y) <> Gt) l ->
  StronglySorted (fun x y => String.ltb (fst x) (fst y) = true) l.
Proof.
  intros Hnd Hs. apply Sorted_StronglySorted.
  - intros x y z. apply ltb_trans.
  - induction Hs as [|a l Hs IH Hhd]; constructor.
    + apply IH. now inversion Hnd.
    + destruct Hhd as [|b l Hab]; constructor.
      apply ltb_compare.
      destruct (String.compare (fst a) (fst b)) eqn:Hc;
        [|reflexivity|now elim Hab].
      apply String.compare_eq_iff in Hc.
      inversion Hnd as [|? ? Hnotin _]; subst.
      elim Hnotin. rewrite Hc. now left.
Qed.

Section DailyActivityFacts.
Variable localeCompare : string -> string -> Z.

(** On dates [localeCompare] orders as the code units do. *)
Hypothesis localeCompare_dates : forall a b,
  iso_date a = true -> iso_date b = true ->
  (localeCompare a b ?= 0)%Z = String.compare a b.

Lemma dayMap_entry conversations k d :
  Forall dated conversations ->
  In (k, d) (fold_left day_step conversations []) ->
  iso_date k = true
  /\ d = day_total zero_day (created_on k conversations)
  /\ exists c, In c conversations
               /\ slice_0_10 (Conversation.created_at c) = k.
Proof.
  intros Hdated Hin.
  apply In_get_own in Hin;
    [|apply fold_day_step_NoDup; [assumption|constructor]].
  rewrite (fold_day_step_get _ Hdated) in Hin. cbn [Obj.get_own] in Hin.
  destruct (filter _ conversations) as [|c l] eqn:Hf; [discriminate|].
  assert (Hc : In c (filter
            (fun c => (slice_0_10 (Conversation.created_at c) =? k)%string)
            conversations)) by (rewrite Hf; now left).
  apply filter_In in Hc. destruct Hc as [Hc Hk].
  apply String.eqb_eq in Hk.
  assert (Hiso : iso_date k = true).
  { rewrite <- Hk. exact (proj1 (Forall_forall _ _) Hdated c Hc). }
  split; [exact Hiso|]. split; [|now exists c].
  injection Hin as <-. rewrite <- Hf. unfold created_on. f_equal.
  apply filter_ext. intros a. symmetry. now apply prefix_iso_date.
Qed.

(** C6. For conversations whose [created_at] starts with an ISO date, and a
    [localeCompare] that orders dates as their code units do,
    [calculateDailyActivity] returns the entries in strictly ascending
    lexical order of [date]; no date occurs twice; the dates are exactly
    the 10-character prefixes of the conversations' [created_at]; and each
    entry counts the conversations whose [created_at] starts with its date
    and adds up their numbers of messages. *)
Theorem calculateDailyActivity_by_day conversations :
  Forall dated conversations ->
  let activity := calculateDailyActivity localeCompare conversations in
  StronglySorted
    (fun x y => String.ltb (DailyActivity.date x) (DailyActivity.date y) = true)
    activity
  /\ NoDup (map DailyActivity.date activity)
  /\ (forall day,
        In day (map DailyActivity.date activity)
        <-> exists c, In c conversations
                      /\ slice_0_10 (Conversation.created_at c) = day)
  /\ Forall
       (fun e =>
          DailyActivity.conversations e
          = List.length (created_on (DailyActivity.date e) conversations)
          /\ DailyActivity.messages e
             = total_messages (created_on (DailyActivity.date e) conversations))
       activity.
Proof.
  intros Hdated activity. subst activity. unfold calculateDailyActivity.
  set (dayMap := fold_left day_step conversations []).
  set (sorted := Array_sort _ (Obj.entries dayMap)).
  assert (Hperm : Permutation sorted dayMap).
  { eapply Permutation_trans; [apply Array_sort_perm|apply entries_perm]. }
  assert (Hnd : NoDup (map fst sorted)).
  { eapply Permutation_NoDup.
    - apply Permutation_map, Permutation_sym, Hperm.
    - apply fold_day_step_NoDup; [assumption|constructor]. }
  assert (Hentry : forall e, In e sorted ->
            iso_date (fst e) = true
            /\ snd e = day_total zero_day (created_on (fst e) conversations)).
  { intros [k d] He. apply (Permutation_in _ Hperm) in He.
    destruct (dayMap_entry _ _ _ Hdated He) as [Hiso [Hd _]]. now split. }
  split; [|split; [|split]].
  - apply StronglySorted_map. cbn [DailyActivity.date].
    apply Sorted_keys_strict; [exact Hnd|].
    apply (Array_sort_Sorted _ (fun e => iso_date (fst e) = true)).
    + intros x y Hx Hy Hle. rewrite <- (localeCompare_dates _ _ Hx Hy).
      rewrite Z.gtb_ltb in Hle. apply Z.ltb_ge in Hle.
      intros Hgt. apply Z.compare_gt_iff in Hgt. lia.
    + intros x y Hx Hy Hgt. rewrite String.compare_antisym.
      rewrite <- (localeCompare_dates _ _ Hx Hy).
      rewrite Z.gtb_ltb in Hgt. apply Z.ltb_lt in Hgt.
      apply Z.compare_gt_iff in Hgt. rewrite Hgt. discriminate.
    + apply Forall_forall. intros [k d] He.
      apply (Permutation_in _ (entries_perm dayMap)) in He.
      now destruct (dayMap_entry _ _ _ Hdated He).
  - rewrite map_map. exact Hnd.
  - intros day. rewrite map_map. cbn [DailyActivity.date].
    split.
    + intros Hin. apply in_map_iff in Hin. destruct Hin as [[k d] [<- He]].
      apply (Permutation_in _ Hperm) in He.
      now destruct (dayMap_entry _ _ _ Hdated He) as [_ [_ Hc]].
    + intros [c [Hc Hday]].
      apply (Permutation_in _ (Permutation_map fst (Permutation_sym Hperm))).
      apply get_own_key. unfold dayMap.
      rewrite (fold_day_step_get _ Hdated).
      destruct (filter _ conversations) as [|c' l] eqn:Hf; [|discriminate].
      assert (Hin : In c (filter
                (fun c => (slice_0_10 (Conversation.created_at c) =? day)%string)
                conversations)).
      { apply filter_In. split; [exact Hc|]. now apply String.eqb_eq. }
      rewrite Hf in Hin. destruct Hin.
  - apply Forall_map. apply Forall_forall. intros e He.
    cbn [DailyActivity.date DailyActivity.conversations DailyActivity.messages].
    destruct (Hentry e He) as [_ ->]. now split.
Qed.

End DailyActivityFacts.

(** ** Tool counters *)

Lemma Forall_put {V} (P : string * V -> Prop) (o : Obj.t V) k v :
  Forall P o -> P (k, v) -> Forall P (Obj.put o k v).
Proof.
  intros Ho Hkv. induction Ho as [|[k0 v0] o H0 Ho IH]; cbn [Obj.put].
  - now repeat constructor.
  - destruct (String.eqb_spec k0 k) as [->|_]; now constructor.
Qed.

Lemma increment_well_counted counts name :
  name <> "" ->
  Forall well_counted counts -> Forall well_counted (increment counts name).
Proof.
  intros Hname Hall. unfold increment, Obj.set.
  destruct (name =? "__proto__")%string; [assumption|].
  apply Forall_put; [assumption|].
  split; [exact Hname|]. cbn [fst snd]. unfold Obj.get.
  destruct (Obj.get_own counts name) as [v|] eqn:Hget.
  - apply get_own_In in Hget.
    destruct (proj1 (Forall_forall _ _) Hall _ Hget) as [_ Hv].
    cbn [fst snd] in Hv.
    destruct v as [[|n]|[|a s]]; cbn [or_zero plus_one]; try lia.
    exact Hv.
  - destruct (Obj.Object_prototype name) as [s|] eqn:Hproto;
      cbn [or_zero plus_one]; [congruence|lia].
Qed.

Lemma tool_name_not_empty c name : tool_name c = Some name -> name <> "".
Proof.
  unfold tool_name.
  destruct (ContentItem.type c); try discriminate.
  destruct (ContentItem.name c) as [[|a s]|]; try discriminate.
  now intros [= <-].
Qed.

Lemma count_item_well_counted counts c :
  Forall well_counted counts -> Forall well_counted (count_item counts c).
Proof.
  intros Hall. unfold count_item.
  destruct (tool_name c) as [name|] eqn:Hname; [|assumption].
  apply increment_well_counted; [|assumption].
  now apply (tool_name_not_empty c).
Qed.

Lemma fold_left_invariant {A B} (P : A -> Prop) (f : A -> B -> A) (l : list B) :
  (forall a b, P a -> P (f a b)) ->
  forall a, P a -> P (fold_left f l a).
Proof.
  intros Hf. induction l as [|b l IH]; intros a Ha; cbn [fold_left]; auto.
Qed.

Lemma scan_messages_well_counted msgs :
  Forall well_counted (snd (scan_messages msgs)).
Proof.
  unfold scan_messages.
  apply (fold_left_invariant (fun acc => Forall well_counted (snd acc)));
    [|constructor].
  intros acc msg Hacc. unfold scan_message.
  apply (fold_left_invariant (fun acc => Forall well_counted (snd acc)));
    [|exact Hacc].
  intros [n counts] c Hc. cbn [scan_item fst snd] in *.
  exact (count_item_well_counted counts c Hc).
Qed.

(** The counters of the three derivations never hold an empty name, and
    under a name that is not inherited from [Object.prototype] they hold a
    number that is at least 1. *)
Lemma tool_counters_well_counted Date_getTime users conversations :
  Forall (fun e =>
            well_counted (ToolUsageEntry.name e, ToolUsageEntry.count e))
         (calculateToolUsage conversations)
  /\ Forall (fun s => Forall well_counted (UserStats.toolUses s))
            (calculateStats Date_getTime users conversations)
  /\ Forall (fun d => Forall well_counted (ConversationDetail.toolsUsed d))
            (calculateConversationDetails Date_getTime conversations users).
Proof.
  split; [|split].
  - unfold calculateToolUsage.
    eapply Permutation_Forall; [apply Permutation_sym, Array_sort_perm|].
    apply Forall_map. cbn [ToolUsageEntry.name ToolUsageEntry.count].
    eapply Permutation_Forall; [apply Permutation_sym, entries_perm|].
    assert (Hall : Forall well_counted
                     (fold_left count_conversation conversations [])).
    { apply (fold_left_invariant (Forall well_counted)); [|constructor].
      intros counts conv Hc. unfold count_conversation.
      apply (fold_left_invariant (Forall well_counted)); [|exact Hc].
      intros counts' msg Hc'. unfold count_message.
      apply (fold_left_invariant (Forall well_counted)); [|exact Hc'].
      apply count_item_well_counted. }
    apply Forall_forall. intros [k v] Hin.
    exact (proj1 (Forall_forall _ _) Hall _ Hin).
  - eapply Permutation_Forall;
      [apply Permutation_sym, calculateStats_perm|].
    apply Forall_map, Forall_forall. intros u _.
    apply scan_messages_well_counted.
  - eapply Permutation_Forall;
      [apply Permutation_sym, calculateConversationDetails_perm|].
    apply Forall_map, Forall_forall. intros c _.
    apply scan_messages_well_counted.
Qed.

(** ** Worked examples *)

(** C10. A [tool_use] block named "constructor" is counted by the three
    derivations, but what they store for it is a string (the text of the
    inherited member followed by "1"), not a number that is at least 1. *)
Theorem tool_named_constructor_miscounted :
  exists text,
    calculateToolUsage [Example.calling "constructor"]
    = [{| ToolUsageEntry.name := "constructor";
          ToolUsageEntry.count := Str text |}]
    /\ map UserStats.toolUses
           (calculateStats Example.Date_getTime Example.two_users
              [Example.calling "constructor"])
       = [[("constructor", Str text)]; []]
    /\ map ConversationDetail.toolsUsed
           (calculateConversationDetails Example.Date_getTime
              [Example.calling "constructor"] Example.two_users)
       = [[("constructor", Str text)]].
Proof.
  exists (Obj.native "Object" ++ "1")%string.
  repeat split; vm_compute; reflexivity.
Qed.

(** The sum law on two users and three conversations. *)
Lemma calculateStats_messageCount_sum_witness :
  list_sum (map UserStats.messageCount
              (calculateStats Example.Date_getTime Example.two_users
                 Example.three_conversations))
  = total_messages Example.three_conversations.
Proof.
  apply calculateStats_messageCount_sum.
  - repeat constructor; simpl; intuition discriminate.
  - intros c [<-|[<-|[<-|[]]]];
      [exists (Example.user "A" "Ada")|exists (Example.user "A" "Ada")
      |exists (Example.user "B" "Bob")];
      simpl; auto.
Defined.

(** The daily activity of three dated conversations. *)
Lemma calculateDailyActivity_by_day_witness :
  Forall dated Example.three_conversations
  /\ StronglySorted
       (fun x y =>
          String.ltb (DailyActivity.date x) (DailyActivity.date y) = true)
       (calculateDailyActivity Example.localeCompare
          Example.three_conversations).
Proof.
  assert (Hdated : Forall dated Example.three_conversations)
    by (repeat constructor).
  split; [exact Hdated|].
  apply (calculateDailyActivity_by_day Example.localeCompare).
  - intros a b _ _. unfold Example.localeCompare.
    destruct (String.compare a b); reflexivity.
  - exact Hdated.
Defined.

(** The detail of an unnamed conversation. *)
Lemma calculateConversationDetails_fallbacks_witness :
  exists d,
    In d (calculateConversationDetails Example.Date_getTime
            Example.three_conversations Example.two_users)
    /\ ConversationDetail.uuid d = "c1"
    /\ ConversationDetail.name d = "Untitled".
Proof.
  destruct (calculateConversationDetails_fallbacks Example.Date_getTime
              Example.three_conversations Example.two_users
              (Example.conversation "c1" "" "2024-01-02T09:00:00Z" "A"
                 [Example.question; Example.answer]))
    as [d [Hin [Huuid [Hname _]]]].
  - left. reflexivity.
  - exists d. split; [exact Hin|]. split; [exact Huuid|].
    apply Hname. reflexivity.
Defined.

(** C7, as stated, fails on a conversation that is itself named
    "Untitled": its detail is named "Untitled" although the conversation's
    name is not empty. *)
Lemma untitled_without_empty_name :
  map ConversationDetail.name
      (calculateConversationDetails Example.Date_getTime
         [Example.conversation "c2" "Untitled" "2024-01-01T10:00:00Z" "A" []]
         Example.two_users)
  = ["Untitled"]
  /\ Conversation.name
       (Example.conversation "c2" "Untitled" "2024-01-01T10:00:00Z" "A" [])
     <> "".
Proof.
  split; [reflexivity|discriminate].
Qed.

(** An archive whose projects.json holds an object. *)
Lemma processZipFile_non_array_projects_witness :
  error (processZipFile Example.JSON_parse Example.previous
           (inr Example.object_projects)) = None
  /\ projects (processZipFile Example.JSON_parse Example.previous
                 (inr Example.object_projects)) = [].
Proof.
  assert (Hall : forall name (P : Exc JSON.t -> Prop),
            (forall entry, In entry (JSZip.files Example.object_projects) ->
               matches name entry = true ->
               P (Example.JSON_parse (ZipObject.content (snd entry)))) ->
            every Example.JSON_parse name Example.object_projects P)
    by (intros name P H; exact H).
  destruct (processZipFile_non_array_projects Example.JSON_parse
              Example.previous Example.object_projects)
    as [Herror [_ [_ [Hprojects _]]]].
  - exists ("export/users.json", Example.file "[]").
    split; [simpl; auto|reflexivity].
  - apply Hall. intros entry [<-|[<-|[<-|[]]]] Hm; try discriminate Hm.
    exists []. reflexivity.
  - exists ("export/Conversations.JSON", Example.file "[]").
    split; [simpl; auto|reflexivity].
  - apply Hall. intros entry [<-|[<-|[<-|[]]]] Hm; try discriminate Hm.
    exists []. reflexivity.
  - exists ("export/projects.json", Example.file "{}").
    split; [simpl; auto|reflexivity].
  - apply Hall. intros entry [<-|[<-|[<-|[]]]] Hm; try discriminate Hm.
    exists (JSON.Object []). split; reflexivity.
  - split; [exact Herror|exact Hprojects].
Defined.

(** C1, as stated, fails on an archive whose projects.json is empty: the
    two required files parse to arrays, yet the load ends with the parser's
    error and the earlier data in place. *)
Lemma malformed_projects_is_fatal :
  present "users.json" Example.malformed_projects
  /\ every Example.JSON_parse "users.json" Example.malformed_projects
       parses_to_array
  /\ present "conversations.json" Example.malformed_projects
  /\ every Example.JSON_parse "conversations.json" Example.malformed_projects
       parses_to_array
  /\ present "projects.json" Example.malformed_projects
  /\ every Example.JSON_parse "projects.json" Example.malformed_projects
       fails_to_parse
  /\ processZipFile Example.JSON_parse Example.previous
       (inr Example.malformed_projects)
     = {| users := [JSON.Object [("uuid", JSON.String "A")]];
          conversations := [];
          projects := [JSON.Object []];
          dataLoaded := true;
          loading := false;
          error := Some "Unexpected end of JSON input" |}.
Proof.
  split; [|split; [|split; [|split; [|split; [|split]]]]].
  - exists ("export/users.json", Example.file "[]").
    split; [simpl; auto|reflexivity].
  - intros entry [<-|[<-|[<-|[<-|[]]]]] Hm; try discriminate Hm.
    exists []. reflexivity.
  - exists ("export/Conversations.JSON", Example.file "[]").
    split; [simpl; auto|reflexivity].
  - intros entry [<-|[<-|[<-|[<-|[]]]]] Hm; try discriminate Hm.
    exists []. reflexivity.
  - exists ("export/projects.json", Example.file "").
    split; [simpl; auto|reflexivity].
  - intros entry [<-|[<-|[<-|[<-|[]]]]] Hm; try discriminate Hm.
    exists "Unexpected end of JSON input". reflexivity.
  - reflexivity.
Qed.

(** The same archive, through the general statement. *)
Lemma processZipFile_malformed_projects_witness :
  error (processZipFile Example.JSON_parse Example.previous
           (inr Example.malformed_projects)) <> None
  /\ same_data Example.previous
       (processZipFile Example.JSON_parse Example.previous
          (inr Example.malformed_projects)).
Proof.
  destruct (processZipFile_malformed_projects Example.JSON_parse
              Example.previous Example.malformed_projects)
    as [[entry [message [_ [_ [_ Herror]]]]] [_ Hsame]].
  - exists ("export/projects.json", Example.file "").
    split; [simpl; auto|]. split; [reflexivity|].
    exists "Unexpected end of JSON input". reflexivity.
  - split; [rewrite Herror; discriminate|exact Hsame].
Defined.

(** C8, as stated, fails on an archive without users.json whose
    projects.json is empty: the load ends with the parser's error, which
    names neither required file. *)
Lemma missing_file_reported_as_parse_error :
  ~ present "users.json" Example.only_projects
  /\ processZipFile Example.JSON_parse Example.previous
       (inr Example.only_projects)
     = {| users := [JSON.Object [("uuid", JSON.String "A")]];
          conversations := [];
          projects := [JSON.Object []];
          dataLoaded := true;
          loading := false;
          error := Some "Unexpected end of JSON input" |}.
Proof.
  split; [|reflexivity].
  intros [entry [[<-|[]] Hm]]. discriminate Hm.
Qed.

(** An archive that holds users.json alone. *)
Lemma processZipFile_missing_required_witness :
  ~ present "conversations.json" Example.only_users
  /\ error (processZipFile Example.JSON_parse Example.previous
              (inr Example.only_users))
     = Some "Zip must contain users.json and conversations.json".
Proof.
  assert (Habsent : ~ present "conversations.json" Example.only_users).
  { intros [entry [[<-|[]] Hm]]. discriminate Hm. }
  split; [exact Habsent|].
  destruct (processZipFile_missing_required Example.JSON_parse
              Example.previous Example.only_users (or_intror Habsent))
    as [_ [_ [Hmessage _]]].
  apply Hmessage.
  intros entry [<-|[]] _. exists (JSON.Array []). reflexivity.
Defined.

(** * Further properties *)

(** ** Counting messages, characters and thinking blocks *)

Lemma fold_left_add {A} (f : A -> nat) (l : list A) (a : nat) :
  fold_left (fun s x => s + f x) l a = a + list_sum (map f l).
Proof.
  revert a. induction l as [|x l IH]; intros a; simpl; [lia|].
  rewrite IH. lia.
Qed.

Lemma total_chars_sum msgs : total_chars msgs = list_sum (map text_length msgs).
Proof.
  unfold total_chars. now rewrite fold_left_add.
Qed.

Lemma list_sum_app_map {A} (f : A -> nat) (l l' : list A) :
  list_sum (map f (l ++ l')) = list_sum (map f l) + list_sum (map f l').
Proof.
  now rewrite map_app, list_sum_app.
Qed.

Lemma human_or_assistant msgs :
  List.length (filter is_human msgs) + List.length (filter is_assistant msgs)
  = List.length msgs.
Proof.
  induction msgs as [|m msgs IH]; [reflexivity|].
  unfold is_human, is_assistant in *. cbn [filter].
  destruct (ChatMessage.sender m); cbn [List.length]; lia.
Qed.

Lemma scan_items_thinking items acc :
  fst (fold_left scan_item items acc)
  = fst acc + List.length (filter is_thinking items).
Proof.
  revert acc. induction items as [|c items IH]; intros acc; cbn [fold_left filter].
  - cbn [List.length]. lia.
  - rewrite IH. cbn [scan_item fst].
    destruct (is_thinking c); cbn [List.length]; lia.
Qed.

Lemma scan_message_thinking msgs acc :
  fst (fold_left scan_message msgs acc)
  = fst acc + List.length (filter is_thinking (flat_map content_or_empty msgs)).
Proof.
  revert acc. induction msgs as [|m msgs IH]; intros acc.
  - simpl. lia.
  - cbn [fold_left flat_map]. rewrite IH. unfold scan_message.
    rewrite scan_items_thinking, filter_app, length_app. lia.
Qed.

Lemma scan_messages_thinking msgs :
  fst (scan_messages msgs) = List.length (filter is_thinking (items_of msgs)).
Proof.
  unfold scan_messages, items_of. now rewrite scan_message_thinking.
Qed.

Lemma length_filter_flat_map {A B} (p : B -> bool) (f : A -> list B) (l : list A) :
  List.length (filter p (flat_map f l))
  = list_sum (map (fun a => List.length (filter p (f a))) l).
Proof.
  induction l as [|a l IH]; [reflexivity|].
  cbn [flat_map map]. rewrite filter_app, length_app, IH. reflexivity.
Qed.

Lemma length_flat_map {A B} (f : A -> list B) (l : list A) :
  List.length (flat_map f l) = list_sum (map (fun a => List.length (f a)) l).
Proof.
  induction l as [|a l IH]; [reflexivity|].
  cbn [flat_map map]. rewrite length_app, IH. reflexivity.
Qed.

Lemma total_chars_filter_flat_map {A} (p : ChatMessage.t -> bool)
  (f : A -> list ChatMessage.t) (l : list A) :
  total_chars (filter p (flat_map f l))
  = list_sum (map (fun a => total_chars (filter p (f a))) l).
Proof.
  induction l as [|a l IH]; [reflexivity|].
  cbn [flat_map map]. rewrite filter_app.
  rewrite total_chars_sum, list_sum_app_map, <- !total_chars_sum, IH.
  reflexivity.
Qed.

Lemma thinking_flat_map {A} (f : A -> list ChatMessage.t) (l : list A) :
  fst (scan_messages (flat_map f l))
  = list_sum (map (fun a => fst (scan_messages (f a))) l).
Proof.
  rewrite scan_messages_thinking. unfold items_of.
  induction l as [|a l IH]; [reflexivity|].
  cbn [flat_map map]. rewrite flat_map_app, filter_app, length_app, IH.
  now rewrite scan_messages_thinking.
Qed.

Lemma positive_length_existsb {A} (p : A -> bool) (l : list A) :
  (0 <? List.length (filter p l)) = existsb p l.
Proof.
  induction l as [|a l IH]; [reflexivity|].
  cbn [filter existsb]. destruct (p a); [reflexivity|exact IH].
Qed.

Lemma length_filter_negb {A} (p : A -> bool) (l : list A) :
  List.length (filter p l) + List.length (filter (fun a => negb (p a)) l)
  = List.length l.
Proof.
  induction l as [|a l IH]; [reflexivity|].
  cbn [filter]. destruct (p a); cbn [negb List.length]; lia.
Qed.

Lemma length_filter_perm {A} (p : A -> bool) (l l' : list A) :
  Permutation l l' ->
  List.length (filter p l) = List.length (filter p l').
Proof.
  induction 1 as [|a l l' _ IH|a b l|l l' l'' _ IH _ IH'];
    cbn [filter]; try reflexivity.
  - destruct (p a); cbn [List.length]; now rewrite IH.
  - destruct (p a), (p b); reflexivity.
  - now rewrite IH.
Qed.

Section CountingFacts.
Variable Date_getTime : string -> option Z.

(** X1. In every entry of [calculateStats] and of
    [calculateConversationDetails] the human and the assistant messages add
    up to the message count. *)
Theorem messages_split_by_sender users conversations :
  Forall (fun s =>
            UserStats.humanMessages s + UserStats.assistantMessages s
            = UserStats.messageCount s)
         (calculateStats Date_getTime users conversations)
  /\ Forall (fun d =>
               ConversationDetail.humanMessages d
               + ConversationDetail.assistantMessages d
               = ConversationDetail.messageCount d)
            (calculateConversationDetails Date_getTime conversations users).
Proof.
  split.
  - eapply Permutation_Forall;
      [apply Permutation_sym, calculateStats_perm|].
    apply Forall_map, Forall_forall. intros u _. apply human_or_assistant.
  - eapply Permutation_Forall;
      [apply Permutation_sym, calculateConversationDetails_perm|].
    apply Forall_map, Forall_forall. intros c _. apply human_or_assistant.
Qed.

(** X2. [thinkingBlocks] is the number of content blocks of type
    "thinking": for an entry of [calculateStats], among all messages of the
    user's conversations; for a conversation, in the detail that
    [calculateConversationDetails] returns for it, among its own
    messages. *)
Theorem thinkingBlocks_counts_blocks users conversations :
  Forall (fun s =>
            UserStats.thinkingBlocks s
            = List.length
                (filter is_thinking
                   (items_of
                      (all_messages
                         (conversations_by (UserStats.user s) conversations)))))
         (calculateStats Date_getTime users conversations)
  /\ Forall (fun conv =>
               exists d,
                 In d (calculateConversationDetails Date_getTime
                         conversations users)
                 /\ ConversationDetail.uuid d = Conversation.uuid conv
                 /\ ConversationDetail.thinkingBlocks d
                    = List.length
                        (filter is_thinking
                           (items_of (Conversation.chat_messages conv))))
            conversations.
Proof.
  split.
  - eapply Permutation_Forall;
      [apply Permutation_sym, calculateStats_perm|].
    apply Forall_map, Forall_forall. intros u _.
    cbn [userStats UserStats.thinkingBlocks UserStats.user].
    apply scan_messages_thinking.
  - apply Forall_forall. intros conv Hin.
    exists (conversationDetail users conv). split; [|split].
    + eapply Permutation_in;
        [apply Permutation_sym, calculateConversationDetails_perm|].
      now apply in_map.
    + reflexivity.
    + apply scan_messages_thinking.
Qed.

(** X3. The per-user totals are the sums of the per-conversation details
    over the user's conversations: messages, messages of each sender,
    characters of each sender and thinking blocks. *)
Theorem user_totals_are_sums_of_details users conversations :
  Forall
    (fun s =>
       let mine :=
         map (conversationDetail users)
             (conversations_by (UserStats.user s) conversations) in
       UserStats.conversationCount s = List.length mine
       /\ UserStats.messageCount s
          = list_sum (map ConversationDetail.messageCount mine)
       /\ UserStats.humanMessages s
          = list_sum (map ConversationDetail.humanMessages mine)
       /\ UserStats.assistantMessages s
          = list_sum (map ConversationDetail.assistantMessages mine)
       /\ UserStats.totalHumanChars s
          = list_sum (map ConversationDetail.humanChars mine)
       /\ UserStats.totalAssistantChars s
          = list_sum (map ConversationDetail.assistantChars mine)
       /\ UserStats.thinkingBlocks s
          = list_sum (map ConversationDetail.thinkingBlocks mine))
    (calculateStats Date_getTime users conversations).
Proof.
  eapply Permutation_Forall;
    [apply Permutation_sym, calculateStats_perm|].
  apply Forall_map, Forall_forall. intros u _.
  cbn [userStats UserStats.user UserStats.conversationCount
       UserStats.messageCount UserStats.humanMessages
       UserStats.assistantMessages UserStats.totalHumanChars
       UserStats.totalAssistantChars UserStats.thinkingBlocks].
  unfold conversations_by. cbv zeta. rewrite !map_map, length_map.
  cbn [conversationDetail ConversationDetail.messageCount
       ConversationDetail.humanMessages ConversationDetail.assistantMessages
       ConversationDetail.humanChars ConversationDetail.assistantChars
       ConversationDetail.thinkingBlocks].
  repeat split.
  - apply length_flat_map.
  - apply length_filter_flat_map.
  - apply length_filter_flat_map.
  - apply total_chars_filter_flat_map.
  - apply total_chars_filter_flat_map.
  - apply thinking_flat_map.
Qed.

(** X4. On the details of [calculateConversationDetails], the two slices of
    [ThinkingVsDirect] are the number of conversations that contain a
    thinking block and the number of those that contain none. *)
Theorem ThinkingVsDirect_slices users conversations :
  ThinkingVsDirect
    (calculateConversationDetails Date_getTime conversations users)
  = [("Extended Thinking",
      Z.of_nat
        (List.length
           (filter (fun c =>
                      existsb is_thinking
                              (items_of (Conversation.chat_messages c)))
                   conversations)));
     ("Direct Response",
      Z.of_nat
        (List.length
           (filter (fun c =>
                      negb (existsb is_thinking
                                    (items_of (Conversation.chat_messages c))))
                   conversations)))].
Proof.
  unfold ThinkingVsDirect.
  pose proof (calculateConversationDetails_perm Date_getTime conversations users)
    as Hperm.
  assert (Hwith :
    List.length
      (filter ConversationDetail.hasThinking
         (calculateConversationDetails Date_getTime conversations users))
    = List.length
        (filter (fun c =>
                   existsb is_thinking
                           (items_of (Conversation.chat_messages c)))
                conversations)).
  { rewrite (length_filter_perm ConversationDetail.hasThinking _ _ Hperm).
    rewrite (filter_map_ext _
               (fun c => existsb is_thinking
                           (items_of (Conversation.chat_messages c)))).
    - apply length_map.
    - intros c. cbn [conversationDetail ConversationDetail.hasThinking].
      rewrite scan_messages_thinking. apply positive_length_existsb. }
  rewrite Hwith, (Permutation_length Hperm), length_map.
  repeat f_equal.
  pose proof (length_filter_negb
                (fun c => existsb is_thinking
                            (items_of (Conversation.chat_messages c)))
                conversations).
  lia.
Qed.

End CountingFacts.

(** ** Latest activity and the order of the details *)

Section TimeFacts.
Variable Date_getTime : string -> option Z.

Lemma latest_is_latest rest c0 :
  let latest :=
    fold_left
      (fun latest c =>
         if time_gt (Date_getTime (Conversation.updated_at c))
                    (Date_getTime (Conversation.updated_at latest))
         then c else latest)
      rest c0 in
  In latest (c0 :: rest)
  /\ ((forall c, In c (c0 :: rest) ->
         Date_getTime (Conversation.updated_at c) <> None) ->
      forall c, In c (c0 :: rest) ->
        no_later_than (Date_getTime (Conversation.updated_at c))
                      (Date_getTime (Conversation.updated_at latest))).
Proof.
  cbv zeta. revert c0.
  induction rest as [|c1 rest IH]; intros c0; cbn [fold_left].
  - split; [now left|].
    intros Hvalid c [<-|[]].
    specialize (Hvalid c0 (or_introl eq_refl)).
    unfold no_later_than.
    destruct (Date_getTime (Conversation.updated_at c0)); [lia|congruence].
  - set (next := if time_gt (Date_getTime (Conversation.updated_at c1))
                            (Date_getTime (Conversation.updated_at c0))
                 then c1 else c0).
    destruct (IH next) as [Hin Hmax].
    assert (Hnext : next = c0 \/ next = c1)
      by (unfold next; destruct (time_gt _ _); auto).
    split.
    + destruct Hin as [<-|Hin]; [|now right; right].
      destruct Hnext as [->| ->]; [now left|now right; left].
    + intros Hvalid c Hc.
      assert (Hvalid' : forall c, In c (next :: rest) ->
                Date_getTime (Conversation.updated_at c) <> None).
      { intros x [<-|Hx]; apply Hvalid.
        - destruct Hnext as [->| ->]; [now left|now right; left].
        - now right; right. }
      specialize (Hmax Hvalid').
      assert (Hboth :
        no_later_than (Date_getTime (Conversation.updated_at c0))
                      (Date_getTime (Conversation.updated_at next))
        /\ no_later_than (Date_getTime (Conversation.updated_at c1))
                         (Date_getTime (Conversation.updated_at next))).
      { pose proof (Hvalid c0 (or_introl eq_refl)) as H0.
        pose proof (Hvalid c1 (or_intror (or_introl eq_refl))) as H1.
        unfold next, no_later_than, time_gt.
        destruct (Date_getTime (Conversation.updated_at c0)) as [t0|] eqn:E0;
          [|congruence].
        destruct (Date_getTime (Conversation.updated_at c1)) as [t1|] eqn:E1;
          [|congruence].
        rewrite Z.gtb_ltb.
        destruct (Z.ltb_spec t0 t1); rewrite ?E0, ?E1; lia. }
      assert (Htrans : forall x,
        no_later_than x (Date_getTime (Conversation.updated_at next)) ->
        no_later_than x
          (Date_getTime
             (Conversation.updated_at
                (fold_left
                   (fun latest c =>
                      if time_gt (Date_getTime (Conversation.updated_at c))
                                 (Date_getTime (Conversation.updated_at latest))
                      then c else latest)
                   rest next)))).
      { intros x Hx. specialize (Hmax next (or_introl eq_refl)).
        unfold no_later_than in *.
        destruct x; [|contradiction].
        destruct (Date_getTime (Conversation.updated_at next));
          [|contradiction].
        match type of Hmax with
        | match ?t with _ => _ end => destruct t; [lia|contradiction]
        end. }
      destruct Hc as [<-|[<-|Hc]].
      * apply Htrans, Hboth.
      * apply Htrans, Hboth.
      * apply Hmax. now right.
Qed.

(** X5. [lastActive] is the empty string for a user without
    conversations; otherwise it is the [updated_at] of one of the user's
    conversations, and when the [updated_at] of all of them are valid dates
    none of them is later. *)
Theorem lastActive_is_latest users conversations :
  Forall
    (fun s =>
       let mine := conversations_by (UserStats.user s) conversations in
       (mine = [] -> UserStats.lastActive s = "")
       /\ (mine <> [] ->
           exists c,
             In c mine
             /\ UserStats.lastActive s = Conversation.updated_at c
             /\ ((forall c', In c' mine ->
                    Date_getTime (Conversation.updated_at c') <> None) ->
                 forall c', In c' mine ->
                   no_later_than
                     (Date_getTime (Conversation.updated_at c'))
                     (Date_getTime (Conversation.updated_at c)))))
    (calculateStats Date_getTime users conversations).
Proof.
  eapply Permutation_Forall;
    [apply Permutation_sym, calculateStats_perm|].
  apply Forall_map, Forall_forall. intros u _.
  cbn [userStats UserStats.user UserStats.lastActive]. cbv zeta.
  unfold conversations_by.
  destruct (filter _ conversations) as [|c0 rest].
  - split; [reflexivity|]. intros H. now elim H.
  - split; [discriminate|]. intros _.
    destruct (latest_is_latest rest c0) as [Hin Hmax].
    eexists. split; [exact Hin|]. split; [reflexivity|exact Hmax].
Qed.

(** X6. When the [created_at] of every conversation is a valid date, the
    details returned by [calculateConversationDetails] are in descending
    order of that date, and details of the same date keep the order of
    their conversations in the input. *)
Theorem calculateConversationDetails_sorted users conversations :
  (forall c, In c conversations ->
     Date_getTime (Conversation.created_at c) <> None) ->
  StronglySorted
    (fun a b =>
       no_later_than (Date_getTime (ConversationDetail.created_at b))
                     (Date_getTime (ConversationDetail.created_at a)))
    (calculateConversationDetails Date_getTime conversations users)
  /\ forall t,
       filter (fun d => at_time t (Date_getTime (ConversationDetail.created_at d)))
              (calculateConversationDetails Date_getTime conversations users)
       = map (conversationDetail users)
             (filter (fun c =>
                        at_time t (Date_getTime (Conversation.created_at c)))
                     conversations).
Proof.
  intros Hvalid. split.
  - assert (Hall : Forall
              (fun d => Date_getTime (ConversationDetail.created_at d) <> None)
              (calculateConversationDetails Date_getTime conversations users)).
    { eapply Permutation_Forall;
        [apply Permutation_sym, calculateConversationDetails_perm|].
      apply Forall_map, Forall_forall. intros c Hc. now apply Hvalid. }
    assert (Hsorted : Sorted
              (fun a b =>
                 no_later_than (Date_getTime (ConversationDetail.created_at b))
                               (Date_getTime (ConversationDetail.created_at a)))
              (calculateConversationDetails Date_getTime conversations users)).
    { apply (Array_sort_Sorted _
               (fun d => Date_getTime (ConversationDetail.created_at d) <> None)).
      - intros x y Hx Hy Hle. unfold no_later_than, time_difference in *.
        destruct (Date_getTime (ConversationDetail.created_at x));
          [|congruence].
        destruct (Date_getTime (ConversationDetail.created_at y));
          [|congruence].
        rewrite Z.gtb_ltb in Hle. apply Z.ltb_ge in Hle. lia.
      - intros x y Hx Hy Hgt. unfold no_later_than, time_difference in *.
        destruct (Date_getTime (ConversationDetail.created_at x));
          [|congruence].
        destruct (Date_getTime (ConversationDetail.created_at y));
          [|congruence].
        rewrite Z.gtb_ltb in Hgt. apply Z.ltb_lt in Hgt. lia.
      - eapply Permutation_Forall;
          [apply calculateConversationDetails_perm|exact Hall]. }
    apply Sorted_StronglySorted; [|exact Hsorted].
    intros a b c Hab Hbc. unfold no_later_than in *.
    destruct (Date_getTime (ConversationDetail.created_at a));
      [|now destruct (Date_getTime (ConversationDetail.created_at b))].
    destruct (Date_getTime (ConversationDetail.created_at b));
      [|contradiction].
    destruct (Date_getTime (ConversationDetail.created_at c));
      [lia|contradiction].
  - intros t. unfold calculateConversationDetails.
    rewrite Array_sort_filter.
    + now rewrite filter_map_swap.
    + intros x y Hx Hy. unfold at_time, time_difference in *.
      destruct (Date_getTime (ConversationDetail.created_at x)); [|discriminate].
      destruct (Date_getTime (ConversationDetail.created_at y)); [|discriminate].
      apply Z.eqb_eq in Hx. apply Z.eqb_eq in Hy. subst.
      rewrite Z.sub_diag. reflexivity.
Qed.

End TimeFacts.

(** ** The summary totals *)

Lemma no_user_matches (users : list User.t) (k : string) (n : nat) :
  ~ In k (map User.uuid users) ->
  list_sum (map (fun u => if (k =? User.uuid u)%string then n else 0) users) = 0.
Proof.
  induction users as [|u users IH]; simpl; intros Hnot; [reflexivity|].
  destruct (String.eqb_spec k (User.uuid u)) as [E|_].
  - elim Hnot. now left.
  - apply IH. intros H. apply Hnot. now right.
Qed.

Lemma resolves_In users conv :
  resolves users conv = true
  <-> In (Account.uuid (Conversation.account conv)) (map User.uuid users).
Proof.
  unfold resolves. rewrite existsb_exists, in_map_iff. split.
  - intros [u [Hin Heq]]. apply String.eqb_eq in Heq. now exists u.
  - intros [u [Heq Hin]]. exists u. split; [exact Hin|].
    now apply String.eqb_eq.
Qed.

(** A quantity that is summed per user over the user's conversations adds
    up, over users with distinct uuids, to its sum over the conversations
    whose account is a user. *)
Lemma sum_over_users (g : Conversation.t -> nat) users conversations :
  NoDup (map User.uuid users) ->
  list_sum (map (fun u => list_sum (map g (conversations_by u conversations)))
                users)
  = list_sum (map g (filter (resolves users) conversations)).
Proof.
  intros Hnd. induction conversations as [|c cs IH].
  - cbn [conversations_by filter map list_sum].
    clear Hnd. induction users as [|u us IHu]; [reflexivity|exact IHu].
  - rewrite (map_ext _
       (fun u => (if (Account.uuid (Conversation.account c) =? User.uuid u)%string
                  then g c else 0)
                 + list_sum (map g (conversations_by u cs)))).
    + rewrite list_sum_map_add, IH. cbn [filter].
      destruct (resolves users c) eqn:Hres.
      * apply resolves_In in Hres.
        rewrite one_user_matches by assumption. reflexivity.
      * rewrite no_user_matches; [reflexivity|].
        intros Hin. apply resolves_In in Hin. congruence.
    + intros u. unfold conversations_by. cbn [filter].
      now destruct (Account.uuid (Conversation.account c) =? User.uuid u)%string.
Qed.

Section TotalsFacts.
Variable Date_getTime : string -> option Z.

(** X7. When the users have pairwise distinct uuids, the totals that [App]
    shows count the conversations whose account is one of the users, and
    only those: [totalMessages] is the number of their messages and
    [thinkingTotal] the number of their thinking blocks. *)
Theorem summary_totals_cover_resolved users conversations :
  NoDup (map User.uuid users) ->
  totalMessages (calculateStats Date_getTime users conversations)
  = total_messages (filter (resolves users) conversations)
  /\ thinkingTotal (calculateStats Date_getTime users conversations)
     = List.length
         (filter is_thinking
            (items_of (all_messages (filter (resolves users) conversations)))).
Proof.
  intros Hnd. unfold totalMessages, thinkingTotal.
  rewrite !fold_left_add. cbn [Nat.add].
  rewrite (list_sum_perm _ _
             (Permutation_map UserStats.messageCount
                (calculateStats_perm Date_getTime users conversations))).
  rewrite (list_sum_perm _ _
             (Permutation_map UserStats.thinkingBlocks
                (calculateStats_perm Date_getTime users conversations))).
  rewrite !map_map.
  cbn [userStats UserStats.messageCount UserStats.thinkingBlocks].
  split.
  - rewrite (map_ext _
       (fun u => list_sum
                   (map (fun c => List.length (Conversation.chat_messages c))
                        (conversations_by u conversations))))
      by (intros u; apply length_flat_map).
    now rewrite sum_over_users.
  - rewrite (map_ext _
       (fun u => list_sum
                   (map (fun c => fst (scan_messages
                                         (Conversation.chat_messages c)))
                        (conversations_by u conversations))))
      by (intros u; apply thinking_flat_map).
    rewrite sum_over_users by assumption.
    rewrite <- thinking_flat_map. apply scan_messages_thinking.
Qed.

End TotalsFacts.

(** ** Tool usage *)

Lemma fold_left_flat_map {A B C} (f : A -> C -> A) (g : B -> list C)
  (l : list B) (a : A) :
  fold_left f (flat_map g l) a
  = fold_left (fun a b => fold_left f (g b) a) l a.
Proof.
  revert a. induction l as [|b l IH]; intros a; [reflexivity|].
  cbn [flat_map fold_left]. now rewrite fold_left_app, IH.
Qed.

(** The three nested loops of [calculateToolUsage] visit the blocks in
    order. *)
Lemma count_conversations_items conversations counts :
  fold_left count_conversation conversations counts
  = fold_left count_item (items_of (all_messages conversations)) counts.
Proof.
  unfold items_of, all_messages, count_conversation, count_message.
  now rewrite !fold_left_flat_map.
Qed.

Lemma fold_left_invariant_in {A B} (P : A -> Prop) (f : A -> B -> A)
  (l : list B) :
  (forall a b, In b l -> P a -> P (f a b)) ->
  forall a, P a -> P (fold_left f l a).
Proof.
  induction l as [|b l IH]; intros Hf a Ha; cbn [fold_left]; [exact Ha|].
  apply IH.
  - intros a' b' Hb'. apply Hf. now right.
  - apply Hf; [now left|exact Ha].
Qed.

Lemma not_inherited_not_proto k :
  Obj.Object_prototype k = None -> (k =? "__proto__")%string = false.
Proof.
  intros Hk. destruct (String.eqb_spec k "__proto__") as [->|_];
    [discriminate Hk|reflexivity].
Qed.

Lemma get_own_increment counts name k :
  Obj.Object_prototype k = None ->
  Obj.get_own (increment counts name) k
  = if (name =? k)%string
    then Some (plus_one (or_zero (Obj.get counts k)))
    else Obj.get_own counts k.
Proof.
  intros Hk. unfold increment, Obj.set.
  destruct (String.eqb_spec name k) as [->|Hne].
  - rewrite (not_inherited_not_proto k Hk), get_own_put, String.eqb_refl.
    reflexivity.
  - destruct (name =? "__proto__")%string; [reflexivity|].
    rewrite get_own_put.
    destruct (String.eqb_spec name k); [contradiction|reflexivity].
Qed.

Lemma NoDup_increment counts name :
  NoDup (map fst counts) -> NoDup (map fst (increment counts name)).
Proof.
  intros Hnd. unfold increment, Obj.set.
  destruct (name =? "__proto__")%string; [exact Hnd|now apply NoDup_put].
Qed.

Lemma NoDup_count_items items counts :
  NoDup (map fst counts) ->
  NoDup (map fst (fold_left count_item items counts)).
Proof.
  apply (fold_left_invariant (fun o => NoDup (map fst o))).
  intros o c Ho. unfold count_item.
  destruct (tool_name c); [now apply NoDup_increment|exact Ho].
Qed.

Lemma held_count_item counts c k :
  Obj.Object_prototype k = None ->
  Forall well_counted counts ->
  held (Obj.get_own (count_item counts c) k)
  = held (Obj.get_own counts k) + uses_of k [c].
Proof.
  intros Hk Hall. unfold count_item, uses_of. cbn [filter].
  destruct (tool_name c) as [name|]; [|cbn [List.length]; lia].
  rewrite (get_own_increment _ _ _ Hk).
  destruct (String.eqb_spec name k) as [->|_]; [|cbn [List.length]; lia].
  cbn [List.length]. unfold Obj.get. rewrite Hk.
  destruct (Obj.get_own counts k) as [v|] eqn:Hget; [|reflexivity].
  apply get_own_In in Hget.
  destruct (proj1 (Forall_forall _ _) Hall _ Hget) as [_ Hv].
  cbn [fst snd] in Hv.
  destruct v as [[|n]|s]; [lia| |congruence].
  cbn [or_zero plus_one held]. lia.
Qed.

Lemma held_count_items items k :
  Obj.Object_prototype k = None ->
  forall counts,
    Forall well_counted counts ->
    held (Obj.get_own (fold_left count_item items counts) k)
    = held (Obj.get_own counts k) + uses_of k items.
Proof.
  intros Hk. induction items as [|c items IH]; intros counts Hall.
  - unfold uses_of. cbn [fold_left filter List.length]. lia.
  - cbn [fold_left].
    rewrite IH by now apply count_item_well_counted.
    rewrite (held_count_item _ _ _ Hk Hall).
    unfold uses_of. cbn [filter].
    destruct (match tool_name c with
              | Some n => (n =? k)%string
              | None => false
              end); cbn [List.length]; lia.
Qed.

Lemma well_counted_items items counts :
  Forall well_counted counts ->
  Forall well_counted (fold_left count_item items counts).
Proof.
  apply (fold_left_invariant (Forall well_counted)).
  intros o c. apply count_item_well_counted.
Qed.

(** The entries of [calculateToolUsage] are the properties of the
    counter. *)
Lemma calculateToolUsage_entries conversations e :
  In e (calculateToolUsage conversations)
  <-> In (ToolUsageEntry.name e, ToolUsageEntry.count e)
         (fold_left count_item (items_of (all_messages conversations)) []).
Proof.
  unfold calculateToolUsage. rewrite count_conversations_items.
  rewrite Array_sort_In, in_map_iff. split.
  - intros [[k v] [<- Hin]]. cbn [ToolUsageEntry.name ToolUsageEntry.count fst snd].
    eapply Permutation_in; [apply entries_perm|exact Hin].
  - intros Hin. exists (ToolUsageEntry.name e, ToolUsageEntry.count e).
    split; [now destruct e|].
    eapply Permutation_in; [apply Permutation_sym, entries_perm|exact Hin].
Qed.

(** X8. The names of the entries of [calculateToolUsage] are pairwise
    distinct. *)
Theorem calculateToolUsage_names_distinct conversations :
  NoDup (map ToolUsageEntry.name (calculateToolUsage conversations)).
Proof.
  unfold calculateToolUsage. rewrite count_conversations_items.
  eapply Permutation_NoDup.
  - apply Permutation_map, Permutation_sym, Array_sort_perm.
  - rewrite map_map. cbn [ToolUsageEntry.name].
    eapply Permutation_NoDup.
    + apply Permutation_map, Permutation_sym, entries_perm.
    + apply NoDup_count_items. constructor.
Qed.

(** X9. For a name that is not the name of an inherited member,
    [calculateToolUsage] has an entry exactly when some [tool_use] block
    carries the name, and the count of the entry is the number of those
    blocks. *)
Theorem calculateToolUsage_counts_uses conversations name :
  Obj.Object_prototype name = None ->
  ((exists e, In e (calculateToolUsage conversations)
              /\ ToolUsageEntry.name e = name)
   <-> 0 < uses_of name (items_of (all_messages conversations)))
  /\ forall e, In e (calculateToolUsage conversations) ->
       ToolUsageEntry.name e = name ->
       ToolUsageEntry.count e
       = Num (uses_of name (items_of (all_messages conversations))).
Proof.
  intros Hname.
  pose proof (held_count_items (items_of (all_messages conversations)) name
                Hname [] (Forall_nil _)) as Hheld.
  cbn [Obj.get_own held Nat.add] in Hheld.
  pose proof (well_counted_items (items_of (all_messages conversations)) []
                (Forall_nil _)) as Hwell.
  pose proof (NoDup_count_items (items_of (all_messages conversations)) []
                (NoDup_nil _)) as Hnd.
  assert (Hcount : forall v,
            In (name, v)
               (fold_left count_item (items_of (all_messages conversations)) []) ->
            v = Num (uses_of name (items_of (all_messages conversations)))).
  { intros v Hin.
    destruct (proj1 (Forall_forall _ _) Hwell _ Hin) as [_ Hv].
    cbn [fst snd] in Hv.
    rewrite (In_get_own _ _ _ Hnd Hin) in Hheld.
    destruct v as [n|s]; [|congruence].
    cbn [held] in Hheld. now rewrite Hheld. }
  split; [split|].
  - intros [e [Hin <-]]. apply calculateToolUsage_entries in Hin.
    destruct (proj1 (Forall_forall _ _) Hwell _ Hin) as [_ Hv].
    cbn [fst snd] in Hv.
    pose proof (Hcount _ Hin) as Hc. rewrite Hc in Hv. exact Hv.
  - intros Hpos.
    destruct (Obj.get_own
                (fold_left count_item (items_of (all_messages conversations)) [])
                name) as [v|] eqn:Hget.
    + exists {| ToolUsageEntry.name := name; ToolUsageEntry.count := v |}.
      split; [|reflexivity].
      apply calculateToolUsage_entries. now apply get_own_In.
    + cbn [held] in Hheld. lia.
  - intros e Hin <-. apply Hcount. now apply calculateToolUsage_entries.
Qed.

Lemma sum_put {V} (g : V -> nat) (o : Obj.t V) k v :
  list_sum (map (fun e => g (snd e)) (Obj.put o k v))
  + match Obj.get_own o k with Some old => g old | None => 0 end
  = list_sum (map (fun e => g (snd e)) o) + g v.
Proof.
  induction o as [|[k0 v0] o IH]; cbn [Obj.put Obj.get_own].
  - simpl. lia.
  - destruct (String.eqb_spec k0 k) as [->|_]; simpl in *; lia.
Qed.

Lemma increment_numbers counts name :
  Obj.Object_prototype name = None ->
  Forall (fun e => is_number (snd e)) counts ->
  Forall (fun e => is_number (snd e)) (increment counts name)
  /\ list_sum (map (fun e => number_of (snd e)) (increment counts name))
     = list_sum (map (fun e => number_of (snd e)) counts) + 1.
Proof.
  intros Hname Hall. unfold increment, Obj.set, Obj.get.
  rewrite (not_inherited_not_proto name Hname), Hname.
  pose proof (sum_put number_of counts name) as Hsum.
  destruct (Obj.get_own counts name) as [v|] eqn:Hget.
  - apply get_own_In in Hget.
    destruct (proj1 (Forall_forall _ _) Hall _ Hget) as [n Hn].
    cbn [snd] in Hn. subst v.
    specialize (Hsum (plus_one (or_zero (Obj.own (Num n))))).
    split.
    + apply Forall_put; [exact Hall|].
      destruct n; cbn [or_zero plus_one snd]; eexists; reflexivity.
    + destruct n; cbn [or_zero plus_one number_of] in *; lia.
  - specialize (Hsum (Num 1)). cbn [or_zero plus_one Nat.add].
    split.
    + apply Forall_put; [exact Hall|]. now exists 1.
    + cbn [number_of] in Hsum. lia.
Qed.

Lemma count_items_numbers items :
  plainly_named items ->
  forall counts,
    Forall (fun e => is_number (snd e)) counts ->
    Forall (fun e => is_number (snd e)) (fold_left count_item items counts)
    /\ list_sum (map (fun e => number_of (snd e))
                     (fold_left count_item items counts))
       = list_sum (map (fun e => number_of (snd e)) counts)
         + List.length (filter named items).
Proof.
  induction items as [|c items IH]; intros Hplain counts Hall.
  - cbn [fold_left filter List.length]. split; [exact Hall|lia].
  - cbn [fold_left filter].
    assert (Hplain' : plainly_named items).
    { intros c' name Hin. apply Hplain. now right. }
    unfold count_item at 2 4. unfold named at 1.
    destruct (tool_name c) as [name|] eqn:Hname.
    + destruct (increment_numbers counts name
                  (Hplain c name (or_introl eq_refl) Hname) Hall)
        as [Hall' Hsum].
      destruct (IH Hplain' _ Hall') as [Hall'' Hsum'].
      split; [exact Hall''|]. rewrite Hsum', Hsum.
      cbn [List.length]. lia.
    + apply (IH Hplain' _ Hall).
Qed.

Lemma toolTotal_numbers (l : list ToolUsageEntry.t) (n : nat) :
  Forall (fun e => is_number (ToolUsageEntry.count e)) l ->
  fold_left (fun s t => plus s (ToolUsageEntry.count t)) l (Num n)
  = Num (n + list_sum (map (fun e => number_of (ToolUsageEntry.count e)) l)).
Proof.
  intros Hall. revert n.
  induction Hall as [|e l [m Hm] _ IH]; intros n; simpl.
  - f_equal. lia.
  - rewrite Hm. cbn [plus number_of]. rewrite IH. f_equal. lia.
Qed.

(** X10. When no [tool_use] block is named after an inherited member, the
    entries of [calculateToolUsage] are in descending order of [count]. *)
Theorem calculateToolUsage_sorted conversations :
  plainly_named (items_of (all_messages conversations)) ->
  StronglySorted
    (fun a b => not_below (ToolUsageEntry.count a) (ToolUsageEntry.count b))
    (calculateToolUsage conversations).
Proof.
  intros Hplain.
  destruct (count_items_numbers _ Hplain [] (Forall_nil _)) as [Hnum _].
  unfold calculateToolUsage. rewrite count_conversations_items.
  apply Sorted_StronglySorted.
  - intros a b c. unfold not_below.
    destruct (ToolUsageEntry.count a), (ToolUsageEntry.count b),
      (ToolUsageEntry.count c); try contradiction; lia.
  - apply (Array_sort_Sorted _
             (fun e => is_number (ToolUsageEntry.count e))).
    + intros x y [m Hx] [n Hy] Hle. unfold not_below.
      rewrite Hx, Hy in *. cbn [count_difference] in Hle.
      rewrite Z.gtb_ltb in Hle. apply Z.ltb_ge in Hle. lia.
    + intros x y [m Hx] [n Hy] Hgt. unfold not_below.
      rewrite Hx, Hy in *. cbn [count_difference] in Hgt.
      rewrite Z.gtb_ltb in Hgt. apply Z.ltb_lt in Hgt. lia.
    + apply Forall_map. cbn [ToolUsageEntry.count].
      eapply Permutation_Forall; [apply Permutation_sym, entries_perm|].
      exact Hnum.
Qed.

(** X11. When no [tool_use] block is named after an inherited member,
    [toolTotal] is the number of [tool_use] blocks that carry a name. *)
Theorem toolTotal_counts_named_blocks conversations :
  plainly_named (items_of (all_messages conversations)) ->
  toolTotal (calculateToolUsage conversations)
  = Num (List.length (filter named (items_of (all_messages conversations)))).
Proof.
  intros Hplain.
  destruct (count_items_numbers _ Hplain [] (Forall_nil _)) as [Hnum Hsum].
  unfold toolTotal, calculateToolUsage.
  rewrite count_conversations_items.
  set (counts := fold_left count_item _ []) in *.
  pose proof (Permutation_trans
                (Array_sort_perm
                   (fun a b =>
                      count_difference (ToolUsageEntry.count b)
                                       (ToolUsageEntry.count a))
                   (map (fun e => {| ToolUsageEntry.name := fst e;
                                     ToolUsageEntry.count := snd e |})
                        (Obj.entries counts)))
                (Permutation_map _ (entries_perm counts))) as Hperm.
  rewrite toolTotal_numbers.
  - rewrite (list_sum_perm _ _ (Permutation_map _ Hperm)), map_map.
    cbn [ToolUsageEntry.count]. rewrite Hsum. reflexivity.
  - eapply Permutation_Forall; [apply Permutation_sym, Hperm|].
    apply Forall_map. exact Hnum.
Qed.

(** ** Daily activity: nothing is lost *)

Lemma day_step_sums (g : DayData.t -> nat) (d1 : nat) dayMap conv :
  dated conv ->
  g zero_day = 0 ->
  (forall d, g (add_conversation d conv) = g d + d1) ->
  list_sum (map (fun e => g (snd e)) (day_step dayMap conv))
  = list_sum (map (fun e => g (snd e)) dayMap) + d1.
Proof.
  unfold dated, day_step.
  set (k := slice_0_10 (Conversation.created_at conv)). intros Hk Hzero Hadd.
  destruct (iso_date_not_inherited k Hk) as [Hproto Hne].
  unfold Obj.get, Obj.set. rewrite Hproto, Hne.
  destruct (Obj.get_own dayMap k) as [d|] eqn:Hget.
  - rewrite Hget.
    pose proof (sum_put g dayMap k (add_conversation d conv)) as Hsum.
    rewrite Hget, Hadd in Hsum. unfold add_conversation in Hsum. lia.
  - rewrite get_own_put, String.eqb_refl.
    pose proof (sum_put g dayMap k zero_day) as Hsum0.
    pose proof (sum_put g (Obj.put dayMap k zero_day) k
                  (add_conversation zero_day conv)) as Hsum1.
    rewrite Hget in Hsum0. rewrite get_own_put, String.eqb_refl in Hsum1.
    rewrite Hadd, Hzero in *.
    unfold add_conversation, zero_day in *.
    cbn [DayData.conversations DayData.messages Nat.add] in *. lia.
Qed.

Section DailyTotals.
Variable localeCompare : string -> string -> Z.

(** X12. For conversations whose [created_at] starts with an ISO date, the
    entries of [calculateDailyActivity] lose nothing: their conversation
    counts add up to the number of conversations and their message counts
    to the number of all messages. *)
Theorem calculateDailyActivity_totals conversations :
  Forall dated conversations ->
  list_sum (map DailyActivity.conversations
                (calculateDailyActivity localeCompare conversations))
  = List.length conversations
  /\ list_sum (map DailyActivity.messages
                  (calculateDailyActivity localeCompare conversations))
     = total_messages conversations.
Proof.
  intros Hdated. unfold calculateDailyActivity. rewrite !map_map.
  cbn [DailyActivity.conversations DailyActivity.messages].
  set (dayMap := fold_left day_step conversations []).
  assert (Hperm : Permutation
                    (Array_sort (fun x y => localeCompare (fst x) (fst y))
                                (Obj.entries dayMap))
                    dayMap).
  { eapply Permutation_trans; [apply Array_sort_perm|apply entries_perm]. }
  rewrite (list_sum_perm _ _
             (Permutation_map (fun e => DayData.conversations (snd e)) Hperm)).
  rewrite (list_sum_perm _ _
             (Permutation_map (fun e => DayData.messages (snd e)) Hperm)).
  unfold dayMap. clear dayMap Hperm.
  change (List.length conversations)
    with (list_sum (map (fun e => DayData.conversations (snd e))
                        (@nil (string * DayData.t)))
          + List.length conversations).
  change (total_messages conversations)
    with (list_sum (map (fun e => DayData.messages (snd e))
                        (@nil (string * DayData.t)))
          + total_messages conversations).
  generalize (@nil (string * DayData.t)).
  induction Hdated as [|conv conversations Hconv _ IH]; intros dayMap.
  - unfold total_messages. simpl. lia.
  - cbn [fold_left]. destruct (IH (day_step dayMap conv)) as [IHc IHm].
    rewrite IHc, IHm.
    rewrite (day_step_sums DayData.conversations 1 dayMap conv Hconv)
      by reflexivity.
    rewrite (day_step_sums DayData.messages
               (List.length (Conversation.chat_messages conv))
               dayMap conv Hconv) by reflexivity.
    unfold total_messages. simpl. lia.
Qed.

End DailyTotals.

(** ** More on the loader *)

Section LoaderMore.
Variable JSON_parse : string -> Exc JSON.t.

Lemma scan_entries_wanted_only found entries :
  scan_entries JSON_parse found (filter wanted entries)
  = scan_entries JSON_parse found entries.
Proof.
  revert found. induction entries as [|entry entries IH]; intros found;
    [reflexivity|].
  cbn [filter scan_entries].
  destruct (wanted entry) eqn:Hw.
  - cbn [scan_entries].
    destruct (scan_entry JSON_parse found entry); cbn [bind]; [reflexivity|].
    apply IH.
  - rewrite (scan_entry_unwanted _ _ _ Hw). cbn [bind ret]. apply IH.
Qed.

(** When every entry that the loader reads parses, the scan ends with the
    value of the last entry of each name. *)
Lemma scan_entries_all_parse entries :
  (forall entry, In entry entries -> wanted entry = true ->
     parses (JSON_parse (ZipObject.content (snd entry)))) ->
  scan_entries JSON_parse nothing_found entries
  = inr {| usersData := pick JSON_parse "users.json" entries JSON.Null;
           conversationsData :=
             pick JSON_parse "conversations.json" entries JSON.Null;
           projectsData :=
             pick JSON_parse "projects.json" entries (JSON.Array []) |}.
Proof.
  intros Hall.
  pose proof (scan_entries_outcome JSON_parse entries nothing_found) as Hscan.
  destruct (scan_entries JSON_parse nothing_found entries) as [message|found].
  - destruct Hscan as [entry [Hin [Hw Hfail]]].
    destruct (Hall entry Hin Hw) as [v Hv]. congruence.
  - destruct Hscan as [_ [Hu [Hc Hp]]]. destruct found as [u c p].
    cbn [usersData conversationsData projectsData nothing_found] in *.
    now subst.
Qed.

(** What [load] returns, in terms of the scan. *)
Lemma load_outcome zip :
  load JSON_parse zip
  = match scan_entries JSON_parse nothing_found (JSZip.files zip) with
    | inl message => inl message
    | inr found =>
        if negb (JSON.truthy (usersData found))
           || negb (JSON.truthy (conversationsData found))
        then inl missing_message
        else if JSON.isArray (usersData found)
                && JSON.isArray (conversationsData found)
        then inr (array_or_empty (usersData found),
                  array_or_empty (conversationsData found),
                  array_or_empty (projectsData found))
        else inl not_arrays_message
    end.
Proof.
  unfold load.
  destruct (scan_entries JSON_parse nothing_found (JSZip.files zip))
    as [message|found]; cbn [bind]; [reflexivity|].
  destruct (negb (JSON.truthy (usersData found))
            || negb (JSON.truthy (conversationsData found))); [reflexivity|].
  destruct (usersData found), (conversationsData found); reflexivity.
Qed.

Lemma pick_last name front entry back initial :
  matches name entry = true ->
  (forall later, In later back -> matches name later = false) ->
  pick JSON_parse name (front ++ entry :: back) initial
  = match JSON_parse (ZipObject.content (snd entry)) with
    | inr v => v
    | inl _ => pick JSON_parse name front initial
    end.
Proof.
  intros Hm Hback. unfold pick. rewrite fold_left_app. cbn [fold_left].
  rewrite Hm.
  apply (pick_absent JSON_parse name back). exact Hback.
Qed.

(** What a successful load has stored. *)
Lemma success_outcome state zip :
  error (processZipFile JSON_parse state (inr zip)) = None ->
  (forall entry, In entry (JSZip.files zip) -> wanted entry = true ->
     parses (JSON_parse (ZipObject.content (snd entry))))
  /\ pick JSON_parse "users.json" (JSZip.files zip) JSON.Null
     = JSON.Array (users (processZipFile JSON_parse state (inr zip)))
  /\ pick JSON_parse "conversations.json" (JSZip.files zip) JSON.Null
     = JSON.Array (conversations (processZipFile JSON_parse state (inr zip)))
  /\ projects (processZipFile JSON_parse state (inr zip))
     = array_or_empty
         (pick JSON_parse "projects.json" (JSZip.files zip) (JSON.Array [])).
Proof.
  unfold processZipFile. cbn [bind]. rewrite load_outcome.
  pose proof (scan_entries_outcome JSON_parse (JSZip.files zip) nothing_found)
    as Hscan.
  destruct (scan_entries JSON_parse nothing_found (JSZip.files zip))
    as [message|found]; [discriminate|].
  destruct Hscan as [Hall [Hu [Hc Hp]]].
  cbn [nothing_found usersData conversationsData projectsData] in Hu, Hc, Hp.
  rewrite <- Hu, <- Hc, <- Hp.
  destruct (negb (JSON.truthy (usersData found))
            || negb (JSON.truthy (conversationsData found)));
    [discriminate|].
  destruct (usersData found), (conversationsData found);
    cbn [JSON.isArray andb]; try discriminate.
  intros _. cbn [users conversations projects array_or_empty].
  now repeat split.
Qed.

(** X13. Directories and entries of other names play no part: the load of
    an archive is the load of its users.json, conversations.json and
    projects.json entries alone. *)
Theorem processZipFile_ignores_other_entries state zip :
  processZipFile JSON_parse state
    (inr {| JSZip.files := filter wanted (JSZip.files zip) |})
  = processZipFile JSON_parse state (inr zip).
Proof.
  unfold processZipFile. cbn [bind]. rewrite !load_outcome.
  cbn [JSZip.files]. now rewrite scan_entries_wanted_only.
Qed.

(** X14. The load succeeds exactly when the content of every users.json,
    conversations.json and projects.json entry parses and the last
    users.json entry and the last conversations.json entry parse to
    arrays. *)
Theorem processZipFile_succeeds_iff state zip :
  error (processZipFile JSON_parse state (inr zip)) = None
  <-> (forall entry, In entry (JSZip.files zip) -> wanted entry = true ->
         parses (JSON_parse (ZipObject.content (snd entry))))
      /\ JSON.isArray (pick JSON_parse "users.json" (JSZip.files zip) JSON.Null)
         = true
      /\ JSON.isArray
           (pick JSON_parse "conversations.json" (JSZip.files zip) JSON.Null)
         = true.
Proof.
  split.
  - intros Hok. destruct (success_outcome state zip Hok) as [Hall [Hu [Hc _]]].
    rewrite Hu, Hc. now repeat split.
  - unfold processZipFile. cbn [bind]. rewrite load_outcome.
    intros [Hall [Hu Hc]]. rewrite (scan_entries_all_parse _ Hall).
    cbn [usersData conversationsData]. rewrite Hu, Hc.
    destruct (pick JSON_parse "users.json" (JSZip.files zip) JSON.Null);
      try discriminate Hu.
    destruct (pick JSON_parse "conversations.json" (JSZip.files zip) JSON.Null);
      try discriminate Hc.
    reflexivity.
Qed.

(** X15. After a successful load the data is that of the last entry of each
    name: the users and the conversations are the arrays parsed from the
    last users.json and the last conversations.json entry, and the projects
    are those of the last projects.json entry when it parses to an array,
    and none when it parses to another value or when the archive has no
    projects.json. *)
Theorem processZipFile_last_entry_wins state zip front entry back :
  JSZip.files zip = front ++ entry :: back ->
  error (processZipFile JSON_parse state (inr zip)) = None ->
  (matches "users.json" entry = true ->
   (forall later, In later back -> matches "users.json" later = false) ->
   JSON_parse (ZipObject.content (snd entry))
   = inr (JSON.Array (users (processZipFile JSON_parse state (inr zip)))))
  /\ (matches "conversations.json" entry = true ->
      (forall later, In later back ->
         matches "conversations.json" later = false) ->
      JSON_parse (ZipObject.content (snd entry))
      = inr (JSON.Array
               (conversations (processZipFile JSON_parse state (inr zip)))))
  /\ (matches "projects.json" entry = true ->
      (forall later, In later back -> matches "projects.json" later = false) ->
      exists v,
        JSON_parse (ZipObject.content (snd entry)) = inr v
        /\ projects (processZipFile JSON_parse state (inr zip))
           = array_or_empty v)
  /\ (~ present "projects.json" zip ->
      projects (processZipFile JSON_parse state (inr zip)) = []).
Proof.
  intros Hfiles Hok.
  destruct (success_outcome state zip Hok) as [Hall [Hu [Hc Hp]]].
  assert (Hin : In entry (JSZip.files zip))
    by (rewrite Hfiles; apply in_elt).
  assert (Hentry : forall name initial,
            wanted entry = true -> matches name entry = true ->
            (forall later, In later back -> matches name later = false) ->
            JSON_parse (ZipObject.content (snd entry))
            = inr (pick JSON_parse name (JSZip.files zip) initial)).
  { intros name initial Hw Hm Hback. rewrite Hfiles.
    rewrite (pick_last _ _ _ _ _ Hm Hback).
    destruct (Hall entry Hin Hw) as [v Hv]. now rewrite Hv. }
  split; [|split; [|split]].
  - intros Hm Hback. rewrite <- Hu. apply Hentry; [|exact Hm|exact Hback].
    unfold wanted. now rewrite Hm.
  - intros Hm Hback. rewrite <- Hc. apply Hentry; [|exact Hm|exact Hback].
    unfold wanted. rewrite Hm. apply orb_true_iff. left. apply orb_true_r.
  - intros Hm Hback. eexists. split; [|exact Hp].
    apply Hentry; [|exact Hm|exact Hback].
    unfold wanted. rewrite Hm. apply orb_true_r.
  - intros Habsent. rewrite Hp.
    now rewrite (pick_absent _ _ _ _ (not_present_absent _ _ Habsent)).
Qed.

(** The value left by a scan under a name that some entry has has the
    property that all entries of the name parse to. *)
Lemma pick_every name zip (P : JSON.t -> Prop) initial :
  present name zip ->
  every JSON_parse name zip (fun r => exists v, r = inr v /\ P v) ->
  P (pick JSON_parse name (JSZip.files zip) initial).
Proof.
  intros Hpresent Hevery.
  destruct (pick_present JSON_parse name (JSZip.files zip) initial Hpresent)
    as [entry [Hin [Hm Hv]]].
  - intros entry Hin Hm. destruct (Hevery entry Hin Hm) as [v [Hv _]].
    now exists v.
  - destruct (Hevery entry Hin Hm) as [v [Hv' HP]].
    rewrite Hv in Hv'. injection Hv' as <-. exact HP.
Qed.

(** X16. When every entry that the loader reads parses and both required
    files are there with truthy values, but users.json or
    conversations.json holds a value that is not an array, the load fails
    with the message that both must be arrays and leaves the data as it
    was. *)
Theorem processZipFile_not_arrays state zip :
  (forall entry, In entry (JSZip.files zip) -> wanted entry = true ->
     parses (JSON_parse (ZipObject.content (snd entry)))) ->
  present "users.json" zip ->
  every JSON_parse "users.json" zip parses_to_truthy ->
  present "conversations.json" zip ->
  every JSON_parse "conversations.json" zip parses_to_truthy ->
  every JSON_parse "users.json" zip parses_to_non_array
  \/ every JSON_parse "conversations.json" zip parses_to_non_array ->
  error (processZipFile JSON_parse state (inr zip))
  = Some "users.json and conversations.json must be arrays"
  /\ same_data state (processZipFile JSON_parse state (inr zip)).
Proof.
  intros Hall Hpu Htu Hpc Htc Hnot.
  assert (Hload : load JSON_parse zip = inl not_arrays_message).
  { rewrite load_outcome, (scan_entries_all_parse _ Hall).
    cbn [usersData conversationsData projectsData].
    rewrite (pick_every "users.json" zip
               (fun v => JSON.truthy v = true) JSON.Null Hpu Htu).
    rewrite (pick_every "conversations.json" zip
               (fun v => JSON.truthy v = true) JSON.Null Hpc Htc).
    cbn [negb orb].
    destruct Hnot as [Hnot|Hnot].
    - now rewrite (pick_every "users.json" zip
                     (fun v => JSON.isArray v = false) JSON.Null Hpu Hnot).
    - rewrite (pick_every "conversations.json" zip
                 (fun v => JSON.isArray v = false) JSON.Null Hpc Hnot).
      now rewrite andb_false_r. }
  rewrite (processZipFile_failure _ _ _ _ Hload).
  split; [reflexivity|now repeat split].
Qed.

(** X17. A required file whose content parses to a falsy value ([null],
    [false], [0] or the empty string) is treated as a missing file: when
    every entry that the loader reads parses, the load fails with the
    message that the archive must contain users.json and conversations.json,
    and leaves the data as it was. *)
Theorem processZipFile_falsy_is_missing state zip :
  (forall entry, In entry (JSZip.files zip) -> wanted entry = true ->
     parses (JSON_parse (ZipObject.content (snd entry)))) ->
  (present "users.json" zip
   /\ every JSON_parse "users.json" zip parses_to_falsy)
  \/ (present "conversations.json" zip
      /\ every JSON_parse "conversations.json" zip parses_to_falsy) ->
  error (processZipFile JSON_parse state (inr zip))
  = Some "Zip must contain users.json and conversations.json"
  /\ same_data state (processZipFile JSON_parse state (inr zip)).
Proof.
  intros Hall Hfalsy.
  assert (Hload : load JSON_parse zip = inl missing_message).
  { rewrite load_outcome, (scan_entries_all_parse _ Hall).
    cbn [usersData conversationsData projectsData].
    destruct Hfalsy as [[Hp Hf]|[Hp Hf]].
    - now rewrite (pick_every "users.json" zip
                     (fun v => JSON.truthy v = false) JSON.Null Hp Hf).
    - rewrite (pick_every "conversations.json" zip
                 (fun v => JSON.truthy v = false) JSON.Null Hp Hf).
      cbn [negb]. now rewrite orb_true_r. }
  rewrite (processZipFile_failure _ _ _ _ Hload).
  split; [reflexivity|now repeat split].
Qed.

(** X18. A load is all or nothing, whatever [JSZip.loadAsync] and the scan
    do: either it ends without error, marks the data as loaded and stores
    data that does not depend on the state before, or it ends with an error
    and leaves the users, conversations, projects and loaded flag as they
    were; in both cases it is no longer loading. *)
Theorem processZipFile_all_or_nothing state opened :
  loading (processZipFile JSON_parse state opened) = false
  /\ ((error (processZipFile JSON_parse state opened) = None
       /\ dataLoaded (processZipFile JSON_parse state opened) = true
       /\ forall other,
            processZipFile JSON_parse other opened
            = processZipFile JSON_parse state opened)
      \/ ((exists message,
             error (processZipFile JSON_parse state opened) = Some message)
          /\ same_data state (processZipFile JSON_parse state opened))).
Proof.
  unfold processZipFile.
  destruct (zip <- opened ;; load JSON_parse zip) as [message|[[us cs] ps]].
  - split; [reflexivity|]. right. split; [now exists message|now repeat split].
  - split; [reflexivity|]. left. now repeat split.
Qed.

End LoaderMore.

(** ** File names *)

Lemma append_snoc (s : string) (a : ascii) (t : string) :
  ((s ++ String a "") ++ t)%string = (s ++ String a t)%string.
Proof.
  induction s as [|b s IH]; simpl; [reflexivity|now rewrite IH].
Qed.

Lemma last_segment_no_slash (base current : string) :
  no_slash base = true -> last_segment base current = (current ++ base)%string.
Proof.
  revert current. induction base as [|a base IH]; intros current Hno.
  - simpl. induction current as [|b c IHc]; simpl; [reflexivity|now rewrite <- IHc].
  - cbn [no_slash] in Hno. apply andb_true_iff in Hno. destruct Hno as [Ha Hno].
    cbn [last_segment]. apply negb_true_iff in Ha. rewrite Ha.
    rewrite (IH _ Hno). apply append_snoc.
Qed.

Lemma last_segment_after_slash (dir base current : string) :
  last_segment (dir ++ String "/" base) current = last_segment base "".
Proof.
  revert current. induction dir as [|a dir IH]; intros current.
  - reflexivity.
  - cbn [append last_segment]. destruct (a =? "/")%char; apply IH.
Qed.

Lemma lower_slash (a : ascii) : (lower a =? "/")%char = (a =? "/")%char.
Proof.
  destruct a as [[] [] [] [] [] [] [] []]; reflexivity.
Qed.

Lemma lower_lower (a : ascii) : lower (lower a) = lower a.
Proof.
  destruct a as [[] [] [] [] [] [] [] []]; reflexivity.
Qed.

Lemma toLowerCase_idempotent (s : string) :
  toLowerCase (toLowerCase s) = toLowerCase s.
Proof.
  induction s as [|a s IH]; simpl; [reflexivity|].
  now rewrite lower_lower, IH.
Qed.

Lemma toLowerCase_snoc (s : string) (a : ascii) :
  toLowerCase (s ++ String a "") = (toLowerCase s ++ String (lower a) "")%string.
Proof.
  induction s as [|b s IH]; simpl; [reflexivity|now rewrite IH].
Qed.

Lemma last_segment_toLowerCase (path current : string) :
  last_segment (toLowerCase path) (toLowerCase current)
  = toLowerCase (last_segment path current).
Proof.
  revert current. induction path as [|a path IH]; intros current;
    [reflexivity|].
  cbn [toLowerCase last_segment]. rewrite lower_slash.
  destruct (a =? "/")%char.
  - apply (IH "").
  - rewrite <- IH. now rewrite toLowerCase_snoc.
Qed.

(** X19. An entry is recognised by the last segment of its path, at any
    depth and in any letter case: the file name of [dir/base] is [base] in
    lower case when [base] has no "/", and a path and its lower-cased form
    have the same file name. *)
Theorem fileName_last_segment_any_case (dir base path : string) :
  (no_slash base = true ->
   fileName (dir ++ String "/" base) = toLowerCase base)
  /\ fileName (toLowerCase path) = fileName path.
Proof.
  unfold fileName. split.
  - intros Hno. rewrite last_segment_after_slash.
    now rewrite (last_segment_no_slash base "" Hno).
  - change (last_segment (toLowerCase path) "")
      with (last_segment (toLowerCase path) (toLowerCase "")).
    rewrite last_segment_toLowerCase. apply toLowerCase_idempotent.
Qed.

(** ** Texts cut to a limit *)

Lemma length_append (s t : string) :
  String.length (s ++ t) = String.length s + String.length t.
Proof.
  induction s as [|a s IH]; simpl; [reflexivity|now rewrite IH].
Qed.

Lemma length_substring_0 (n : nat) (s : string) :
  String.length (substring 0 n s) = Nat.min n (String.length s).
Proof.
  revert s. induction n as [|n IH]; intros [|a s]; simpl; try reflexivity.
  now rewrite IH.
Qed.

Lemma substring_0_all (n : nat) (s : string) :
  String.length s <= n -> substring 0 n s = s.
Proof.
  revert s. induction n as [|n IH]; intros [|a s]; simpl; intros Hle;
    try reflexivity; try lia.
  rewrite IH; [reflexivity|lia].
Qed.

Lemma prefix_substring_0 (n : nat) (s : string) :
  prefix (substring 0 n s) s = true.
Proof.
  revert s. induction n as [|n IH]; intros [|a s]; simpl; try reflexivity.
  destruct (ascii_dec a a) as [_|Hne]; [apply IH|now elim Hne].
Qed.

Lemma append_empty (s : string) : (s ++ "")%string = s.
Proof.
  induction s as [|a s IH]; simpl; [reflexivity|now rewrite IH].
Qed.

(** X20. The body that [ConversationDetailView] shows for a message is at
    most [MSG_TRUNCATE_LIMIT + 3] characters long; it is the whole text
    when the text has between 1 and [MSG_TRUNCATE_LIMIT] characters, the
    first [MSG_TRUNCATE_LIMIT] characters of the text followed by "..."
    when it has more, and "(no text content)" when the text is absent or
    empty. *)
Theorem message_body_cut msg :
  String.length (message_body msg) <= MSG_TRUNCATE_LIMIT + 3
  /\ match ChatMessage.text msg with
     | None | Some EmptyString => message_body msg = "(no text content)"
     | Some text =>
         (String.length text <= MSG_TRUNCATE_LIMIT -> message_body msg = text)
         /\ (MSG_TRUNCATE_LIMIT < String.length text ->
             exists head,
               message_body msg = (head ++ "...")%string
               /\ String.length head = MSG_TRUNCATE_LIMIT
               /\ prefix head text = true)
     end.
Proof.
  unfold message_body.
  destruct (ChatMessage.text msg) as [[|a s]|].
  - split; [|reflexivity].
    apply Nat.leb_le. vm_compute. reflexivity.
  - generalize (String a s) as text. intros text.
    destruct (Nat.ltb_spec MSG_TRUNCATE_LIMIT (String.length text)) as [Hlong|Hshort].
    + split.
      * rewrite length_append, length_substring_0. simpl String.length. lia.
      * split; [lia|]. intros _.
        exists (substring 0 MSG_TRUNCATE_LIMIT text).
        split; [reflexivity|]. split.
        -- rewrite length_substring_0. lia.
        -- apply prefix_substring_0.
    + split; [lia|]. split; [reflexivity|lia].
  - split; [|reflexivity].
    apply Nat.leb_le. vm_compute. reflexivity.
Qed.

(** X21. The description on a project card is at most 153 characters
    long; it is the whole description when that has between 1 and 150
    characters, its first 150 characters followed by "..." when it has
    more, and "No description" when it is empty. *)
Theorem project_description_cut p :
  String.length (project_description p) <= 153
  /\ match Project.description p with
     | EmptyString => project_description p = "No description"
     | description =>
         (String.length description <= 150 ->
          project_description p = description)
         /\ (150 < String.length description ->
             exists head,
               project_description p = (head ++ "...")%string
               /\ String.length head = 150
               /\ prefix head description = true)
     end.
Proof.
  unfold project_description.
  destruct (Project.description p) as [|a s].
  - split; [|reflexivity].
    apply Nat.leb_le. vm_compute. reflexivity.
  - generalize (String a s) as description. intros description.
    destruct (Nat.ltb_spec 150 (String.length description)) as [Hlong|Hshort].
    + split.
      * rewrite length_append, length_substring_0. simpl String.length. lia.
      * split; [lia|]. intros _.
        exists (substring 0 150 description).
        split; [reflexivity|]. split.
        -- rewrite length_substring_0. lia.
        -- apply prefix_substring_0.
    + rewrite append_empty, (substring_0_all 150 description Hshort).
      split; [lia|]. split; [reflexivity|lia].
Qed.

(** ** The view of [App] *)

Lemma find_unique {A} (key : A -> string) (l : list A) (x : A) :
  NoDup (map key l) -> In x l ->
  find (fun y => (key y =? key x)%string) l = Some x.
Proof.
  induction l as [|y l IH]; cbn [map find]; intros Hnd Hin; [destruct Hin|].
  inversion Hnd as [|? ? Hnotin Hnd']; subst.
  destruct Hin as [->|Hin].
  - now rewrite String.eqb_refl.
  - destruct (String.eqb_spec (key y) (key x)) as [E|_]; [|now apply IH].
    elim Hnotin. rewrite E. now apply in_map.
Qed.

Lemma find_none {A} (key : A -> string) (l : list A) (id : string) :
  (forall y, In y l -> key y <> id) ->
  find (fun y => (key y =? id)%string) l = None.
Proof.
  intros Hnone. destruct (find _ l) as [y|] eqn:Hfind; [|reflexivity].
  apply find_some in Hfind. destruct Hfind as [Hin Heq].
  apply String.eqb_eq in Heq. now elim (Hnone y Hin).
Qed.

Section AppViewFacts.
Variable Date_getTime : string -> option Z.

(** X22. Before data is loaded [App] shows the upload screen whatever is
    selected.  Once data is loaded: with nothing selected (null or the
    empty id), and with an id selected that no conversation has, it shows
    the dashboard; and when the conversations have pairwise distinct uuids,
    selecting the (non-empty) uuid of a conversation shows that
    conversation together with its own detail. *)
Theorem App_view_selection users conversations :
  (forall selected,
     App_view Date_getTime users conversations false selected = UploadScreen)
  /\ App_view Date_getTime users conversations true None = Dashboard
  /\ App_view Date_getTime users conversations true (Some "") = Dashboard
  /\ (forall id,
        (forall c, In c conversations -> Conversation.uuid c <> id) ->
        App_view Date_getTime users conversations true (Some id) = Dashboard)
  /\ (NoDup (map Conversation.uuid conversations) ->
      forall conv,
        In conv conversations ->
        Conversation.uuid conv <> "" ->
        App_view Date_getTime users conversations true
          (Some (Conversation.uuid conv))
        = DetailView (conversationDetail users conv) conv).
Proof.
  pose proof (calculateConversationDetails_perm Date_getTime conversations users)
    as Hperm.
  split; [reflexivity|]. split; [reflexivity|]. split; [reflexivity|].
  split.
  - intros id Hnone. unfold App_view. cbn [negb].
    destruct id as [|a s]; [reflexivity|].
    rewrite (find_none Conversation.uuid _ _ Hnone).
    now destruct (find _ _).
  - intros Hnd conv Hin Hid. unfold App_view. cbn [negb].
    destruct (Conversation.uuid conv) as [|a s] eqn:Huuid; [now elim Hid|].
    rewrite <- Huuid.
    change (Conversation.uuid conv)
      with (ConversationDetail.uuid (conversationDetail users conv)) at 1.
    rewrite (find_unique ConversationDetail.uuid).
    + now rewrite (find_unique Conversation.uuid _ _ Hnd Hin).
    + eapply Permutation_NoDup.
      * apply Permutation_map, Permutation_sym, Hperm.
      * now rewrite map_map.
    + eapply Permutation_in; [apply Permutation_sym, Hperm|].
      now apply in_map.
Qed.

End AppViewFacts.

(** ** The theme *)

(** X23. The theme that the effect of [useTheme] stores is the theme with
    which [useTheme] starts again, whatever the system prefers; storing it
    leaves every other item of the storage as it was; and toggling twice
    gives the theme back. *)
Theorem theme_is_restored storage theme prefers_light :
  initial_theme (store_theme storage theme) prefers_light = theme
  /\ (forall key, key <> "claude-dash-theme" ->
        getItem (store_theme storage theme) key = getItem storage key)
  /\ toggle (toggle theme) = theme.
Proof.
  unfold initial_theme, store_theme, getItem, setItem.
  split; [|split].
  - rewrite get_own_put, String.eqb_refl. now destruct theme.
  - intros key Hkey. rewrite get_own_put.
    destruct (String.eqb_spec "claude-dash-theme" key) as [E|_];
      [now elim Hkey|reflexivity].
  - now destruct theme.
Qed.

(** ** Further worked examples *)

(** Four conversations with valid dates. *)
Lemma calculateConversationDetails_sorted_witness :
  StronglySorted
    (fun a b =>
       no_later_than
         (Example.Date_getTime (ConversationDetail.created_at b))
         (Example.Date_getTime (ConversationDetail.created_at a)))
    (calculateConversationDetails Example.Date_getTime
       Sample.four_conversations Example.two_users).
Proof.
  apply (calculateConversationDetails_sorted Example.Date_getTime).
  intros c [<-|[<-|[<-|[<-|[]]]]]; vm_compute; discriminate.
Defined.

(** Two users, and a conversation of an account that is none of them. *)
Lemma summary_totals_cover_resolved_witness :
  NoDup (map User.uuid Example.two_users)
  /\ totalMessages
       (calculateStats Example.Date_getTime Example.two_users
          Sample.four_conversations)
     = total_messages
         (filter (resolves Example.two_users) Sample.four_conversations).
Proof.
  assert (Hnd : NoDup (map User.uuid Example.two_users))
    by (repeat constructor; simpl; intuition discriminate).
  split; [exact Hnd|].
  apply (summary_totals_cover_resolved Example.Date_getTime _ _ Hnd).
Defined.

(** The uses of "web_search" in four conversations. *)
Lemma calculateToolUsage_counts_uses_witness :
  exists e,
    In e (calculateToolUsage Sample.four_conversations)
    /\ ToolUsageEntry.name e = "web_search".
Proof.
  apply (calculateToolUsage_counts_uses Sample.four_conversations "web_search").
  - reflexivity.
  - vm_compute. lia.
Defined.

Lemma four_conversations_plainly_named :
  plainly_named (items_of (all_messages Sample.four_conversations)).
Proof.
  intros c name Hin Hname. vm_compute in Hin.
  repeat (destruct Hin as [<-|Hin];
          [vm_compute in Hname; try discriminate Hname;
           injection Hname as <-; reflexivity|]).
  destruct Hin.
Defined.

Lemma calculateToolUsage_sorted_witness :
  StronglySorted
    (fun a b => not_below (ToolUsageEntry.count a) (ToolUsageEntry.count b))
    (calculateToolUsage Sample.four_conversations).
Proof.
  apply calculateToolUsage_sorted, four_conversations_plainly_named.
Defined.

Lemma toolTotal_counts_named_blocks_witness :
  toolTotal (calculateToolUsage Sample.four_conversations)
  = Num (List.length
           (filter named (items_of (all_messages Sample.four_conversations)))).
Proof.
  apply toolTotal_counts_named_blocks, four_conversations_plainly_named.
Defined.

Lemma calculateDailyActivity_totals_witness :
  Forall dated Sample.four_conversations
  /\ list_sum (map DailyActivity.conversations
                   (calculateDailyActivity Example.localeCompare
                      Sample.four_conversations))
     = 4.
Proof.
  assert (Hdated : Forall dated Sample.four_conversations)
    by (repeat constructor).
  split; [exact Hdated|].
  apply (calculateDailyActivity_totals Example.localeCompare _ Hdated).
Defined.

(** The later of two users.json entries is the one that is loaded. *)
Lemma processZipFile_last_entry_wins_witness :
  Sample.JSON_parse "[]"
  = inr (JSON.Array
           (users (processZipFile Sample.JSON_parse Example.previous
                     (inr Sample.two_user_files)))).
Proof.
  destruct (processZipFile_last_entry_wins Sample.JSON_parse Example.previous
              Sample.two_user_files
              [("old/users.json", Example.file "[null]")]
              ("new/users.json", Example.file "[]")
              [("new/conversations.json", Example.file "[]")]
              eq_refl eq_refl) as [Husers _].
  apply Husers.
  - reflexivity.
  - intros later [<-|[]]. reflexivity.
Defined.

Lemma processZipFile_not_arrays_witness :
  error (processZipFile Sample.JSON_parse Example.previous
           (inr Sample.object_users))
  = Some "users.json and conversations.json must be arrays".
Proof.
  apply (processZipFile_not_arrays Sample.JSON_parse Example.previous
           Sample.object_users).
  - intros entry [<-|[<-|[]]] _; eexists; reflexivity.
  - exists ("users.json", Example.file "{}").
    split; [now left|reflexivity].
  - intros entry [<-|[<-|[]]] Hm; try discriminate Hm.
    exists (JSON.Object []). now split.
  - exists ("conversations.json", Example.file "[]").
    split; [now right; left|reflexivity].
  - intros entry [<-|[<-|[]]] Hm; try discriminate Hm.
    exists (JSON.Array []). now split.
  - left. intros entry [<-|[<-|[]]] Hm; try discriminate Hm.
    exists (JSON.Object []). now split.
Defined.

Lemma processZipFile_falsy_is_missing_witness :
  error (processZipFile Sample.JSON_parse Example.previous
           (inr Sample.null_users))
  = Some "Zip must contain users.json and conversations.json".
Proof.
  apply (processZipFile_falsy_is_missing Sample.JSON_parse Example.previous
           Sample.null_users).
  - intros entry [<-|[<-|[]]] _; eexists; reflexivity.
  - left. split.
    + exists ("users.json", Example.file "null").
      split; [now left|reflexivity].
    + intros entry [<-|[<-|[]]] Hm; try discriminate Hm.
      exists JSON.Null. now split.
Defined.

(** Selecting the second of three conversations. *)
Lemma App_view_selection_witness :
  App_view Example.Date_getTime Example.two_users Example.three_conversations
    true (Some "c2")
  = DetailView
      (conversationDetail Example.two_users
         (Example.conversation "c2" "Untitled" "2024-01-01T10:00:00Z" "A"
            [Example.question; Example.answer; Example.question]))
      (Example.conversation "c2" "Untitled" "2024-01-01T10:00:00Z" "A"
         [Example.question; Example.answer; Example.question]).
Proof.
  destruct (App_view_selection Example.Date_getTime Example.two_users
              Example.three_conversations) as [_ [_ [_ [_ Hselect]]]].
  apply (Hselect
           ltac:(repeat constructor; simpl; intuition discriminate)
           (Example.conversation "c2" "Untitled" "2024-01-01T10:00:00Z" "A"
              [Example.question; Example.answer; Example.question])).
  - right. left. reflexivity.
  - discriminate.
Defined.
